(** * Grain activation core of the cluster package, and the grain stub generator

    A shallow embedding of
    - [cluster/config.go]: cluster configuration, kind registration, the
      activation middleware ([handleStarted], [handleStopped]) and the
      per-kind live counter of [ActivatedKind];
    - [protobuf/protoc-gen-go-grain/generate.go]: the loop of
      [generateService] that builds one [methodDesc] per dispatched method,
      and the header, content and file that are generated around it.

    Go pointers to records that the code never compares or mutates are
    modelled by the records themselves; objects that are shared and mutated
    (event streams, pid caches, the extension slots of actor contexts) live in
    an explicit [World] that every receiver threads through. *)

From stdpp Require Import gmap strings list sorting pretty.

(** ** Package [time] *)

Module time.

(** [time.Duration] is an [int64] count of nanoseconds. *)
Definition Duration : Type := Z.

Definition wrapInt64 (z : Z) : Z := ((z + 2 ^ 63) `mod` 2 ^ 64 - 2 ^ 63)%Z.

Definition Nanosecond : Duration := 1%Z.
Definition Microsecond : Duration := wrapInt64 (1000 * Nanosecond).
Definition Millisecond : Duration := wrapInt64 (1000 * Microsecond).
Definition Second : Duration := wrapInt64 (1000 * Millisecond).

(** [d * n] on durations, with the wrap-around of [int64]. *)
Definition mul (d : Duration) (n : Z) : Duration := wrapInt64 (d * n).

End time.

(** ** Package [sync/atomic] *)

Module atomic.

Definition wrapInt32 (z : Z) : Z := ((z + 2 ^ 31) `mod` 2 ^ 32 - 2 ^ 31)%Z.

(** [atomic.AddInt32(addr, delta)]: the new content of [*addr]. The
    operation is a single indivisible step, so concurrent callers are
    serialised in some order. *)
Definition AddInt32 (val delta : Z) : Z := wrapInt32 (val + delta).

End atomic.

(** ** Package [cluster] and the parts of package [actor] it touches *)

Module cluster.

(** *** References to collaborators

    Interface values and pointers that this file only stores and hands on
    are kept as addresses. *)

Definition loc : Type := N.

Definition ClusterProvider : Type := loc.
Definition IdentityLookup : Type := loc.
Definition RemoteConfig : Type := loc.
Definition MemberStrategy : Type := loc.
Definition ClusterContext : Type := loc.

(** [actor.PID] *)
Record PID : Type := {
  PID_Address : string;
  PID_Id : string
}.

#[global] Instance PID_eq_dec : EqDecision PID.
Proof. solve_decision. Defined.

(** Modelled from the spec: [PID.Equal] is declared in package [actor]; the
    removal from the cache is qualified by the "processRef", and two
    references are the same process when address and id agree. *)
Definition PID_Equal (pid other : PID) : bool := bool_decide (pid = other).

Record ClusterIdentity : Type := {
  ClusterIdentity_Identity : string;
  ClusterIdentity_Kind : string
}.

(** [actor.ActorSystem]: its event stream is a shared object in the world. *)
Record ActorSystem : Type := {
  ActorSystem_ID : string;
  ActorSystem_EventStream : loc
}.

(** [Cluster]: the two fields this file reads. *)
Record Cluster : Type := {
  Cluster_ActorSystem : ActorSystem;
  Cluster_PidCache : loc
}.

Record ActivationTerminating : Type := {
  ActivationTerminating_Pid : PID;
  ActivationTerminating_ClusterIdentity : ClusterIdentity
}.

(** [Identity] is a pointer that may be nil. *)
Record ClusterInit : Type := {
  ClusterInit_Identity : option ClusterIdentity;
  ClusterInit_Cluster : Cluster
}.

(** What travels on an event stream ([interface{}] in Go). *)
Inductive Event : Type :=
| EvActivationTerminating (ev : ActivationTerminating)
| EvOther (name : string).

(** The dynamic type of [envelope.Message] ([interface{}] in Go): the
    lifecycle signals of package [actor], [*ClusterInit], and everything
    else. *)
Inductive Message : Type :=
| Started
| Stopping
| Stopped
| Restarting
| MsgClusterInit (grainInit : ClusterInit)
| MsgUser (typeName : string) (payload : string).

(** [actor.MessageEnvelope] *)
Record MessageEnvelope : Type := {
  MessageEnvelope_Header : option (list (string * string));
  MessageEnvelope_Message : Message;
  MessageEnvelope_Sender : option PID
}.

(** Modelled from the spec: [actor.WrapEnvelope] is declared outside
    [config.go]. The spec has ClusterInit delivered "through the same
    pipeline as a second, distinct message"; the envelope built for it
    carries the message and neither header nor sender. *)
Definition WrapEnvelope (message : Message) : MessageEnvelope :=
  {| MessageEnvelope_Header := None;
     MessageEnvelope_Message := message;
     MessageEnvelope_Sender := None |}.

(** [actor.ReceiverContext]: [Self()] and [ActorSystem()] are fixed when the
    context is created; its extension slots are mutable and live in the
    world under [ReceiverContext_id]. *)
Record ReceiverContext : Type := {
  ReceiverContext_id : loc;
  ReceiverContext_Self : PID;
  ReceiverContext_ActorSystem : ActorSystem
}.

(** *** The shared world *)

(** A call received by one of the collaborators of the middleware. *)
Inductive Call : Type :=
| CallPublish (stream : loc) (ev : Event)
| CallRemoveByValue (cache : loc) (identity kind : string) (pid : PID)
| CallNext (ctx : loc) (envelope : MessageEnvelope).

Record World : Type := {
  (** per context: the cluster identity stored with [ctx.Set] *)
  World_extensions : gmap loc ClusterIdentity;
  (** per event stream: the events published so far, oldest first *)
  World_streams : gmap loc (list Event);
  (** per pid cache: (identity, kind) to the live process *)
  World_caches : gmap loc (gmap (string * string) PID);
  (** the calls the collaborators have received, oldest first *)
  World_trace : list Call
}.

Definition record (call : Call) (w : World) : World :=
  {| World_extensions := World_extensions w;
     World_streams := World_streams w;
     World_caches := World_caches w;
     World_trace := World_trace w ++ [call] |}.

Definition ReceiverFunc : Type := ReceiverContext → MessageEnvelope → World → World.
Definition ReceiverMiddleware : Type := ReceiverFunc → ReceiverFunc.

(** A receiver that only records what it is given: the grain as an
    observer of its own pipeline. *)
Definition recordingReceiver : ReceiverFunc :=
  fun c envelope w => record (CallNext (ReceiverContext_id c) envelope) w.

(** Whether a call hands a ClusterInit message to the wrapped pipeline. *)
Definition deliversClusterInit (call : Call) : bool :=
  match call with
  | CallNext _ envelope =>
      match MessageEnvelope_Message envelope with
      | MsgClusterInit _ => true
      | _ => false
      end
  | _ => false
  end.

(** Modelled from the spec: the extension slot of an actor context
    ([ctx.Set], declared in package [actor]). The identity is "attached to
    an activation's context"; a later [Set] replaces it. *)
Definition Context_Set (c : ReceiverContext) (ci : ClusterIdentity) (w : World) : World :=
  {| World_extensions := <[ReceiverContext_id c := ci]> (World_extensions w);
     World_streams := World_streams w;
     World_caches := World_caches w;
     World_trace := World_trace w |}.

(** Modelled from the spec: [GetClusterIdentity] is declared outside
    [config.go]. It "resolve[s] the Identity previously attached to this
    activation's context", and is nil when none was attached. *)
Definition GetClusterIdentity (c : ReceiverContext) (w : World) : option ClusterIdentity :=
  World_extensions w !! ReceiverContext_id c.

(** Modelled from the spec: [EventStream.Publish] (package [eventstream]),
    "publish(event); subscribers are external". The stream keeps the events
    in publication order. *)
Definition EventStream_Publish (stream : loc) (ev : Event) (w : World) : World :=
  record (CallPublish stream ev)
    {| World_extensions := World_extensions w;
       World_streams := <[stream := World_streams w !!! stream ++ [ev]]> (World_streams w);
       World_caches := World_caches w;
       World_trace := World_trace w |}.

(** Modelled from the spec: [PidCacheValue.RemoveByValue] is declared outside
    [config.go]: "a value-qualified removal, not a blind key removal, so
    that a cache entry that has already been overwritten by a newer
    activation for the same identity is left untouched". *)
Definition removeByValue (identity kind : string) (pid : PID)
    (cache : gmap (string * string) PID) : gmap (string * string) PID :=
  match cache !! (identity, kind) with
  | Some existing => if PID_Equal existing pid then delete (identity, kind) cache else cache
  | None => cache
  end.

(** [RemoveByValue] on the pid cache at [cache], a shared object of the
    world. *)
Definition PidCache_RemoveByValue (cache : loc) (identity kind : string) (pid : PID)
    (w : World) : World :=
  record (CallRemoveByValue cache identity kind pid)
    {| World_extensions := World_extensions w;
       World_streams := World_streams w;
       World_caches := <[cache := removeByValue identity kind pid (World_caches w !!! cache)]>
                         (World_caches w);
       World_trace := World_trace w |}.

(** Modelled from the spec: [actor.Props] is declared outside [config.go].
    It is the "behavior factory" of a kind; this file attaches a receiver
    middleware to it ([NewKind]) and an init hook ([WithClusterIdentity]). *)
Record Props : Type := {
  Props_producer : loc;
  Props_receiverMiddleware : list ReceiverMiddleware;
  Props_onInit : list (ReceiverContext → World → World)
}.

Definition PropsOption : Type := Props → Props.

(** Modelled from the spec: [actor.WithReceiverMiddleware] is declared outside
    [config.go]; it adds a middleware that "wraps a grain's
    message-processing pipeline". *)
Definition WithReceiverMiddleware (middleware : ReceiverMiddleware) : PropsOption :=
  fun props =>
    {| Props_producer := Props_producer props;
       Props_receiverMiddleware := Props_receiverMiddleware props ++ [middleware];
       Props_onInit := Props_onInit props |}.

(** Modelled from the spec: [actor.WithOnInit] is declared outside
    [config.go]; its hook runs once "at construction" of the activation. *)
Definition WithOnInit (init : ReceiverContext → World → World) : PropsOption :=
  fun props =>
    {| Props_producer := Props_producer props;
       Props_receiverMiddleware := Props_receiverMiddleware props;
       Props_onInit := Props_onInit props ++ [init] |}.

(** Modelled from the spec: [Props.Clone] is declared outside [config.go];
    "each activation clones the Kind's behavior with ActivationMiddleware
    attached": a copy with the options applied in order. *)
Definition Props_Clone (props : Props) (opts : list PropsOption) : Props :=
  foldl (fun p opt => opt p) props opts.

(** Modelled from the spec: the hooks of [Props_onInit] are run by the actor
    runtime, outside [config.go], when the activation is constructed. *)
Definition Props_runInit (props : Props) (c : ReceiverContext) (w : World) : World :=
  foldl (fun w init => init c w) w (Props_onInit props).

(** *** [config.go] *)

(** Represents the kinds of actors a cluster can manage. [StrategyBuilder] is
    a function value that may be nil, and the [MemberStrategy] it returns is
    an interface value that may be nil. *)
Record Kind : Type := {
  Kind_Kind : string;
  Kind_Props : Props;
  Kind_StrategyBuilder : option (Cluster → option MemberStrategy)
}.

Record Config : Type := {
  Config_Name : string;
  Config_Address : string;
  Config_ClusterProvider : ClusterProvider;
  Config_IdentityLookup : IdentityLookup;
  Config_RemoteConfig : RemoteConfig;
  Config_RequestTimeoutTime : time.Duration;
  Config_RequestsLogThrottlePeriod : time.Duration;
  Config_MaxNumberOfEventsInRequestLogThrottledPeriod : Z;
  Config_ClusterContextProducer : Cluster → ClusterContext;
  Config_MemberStrategyBuilder : Cluster → string → MemberStrategy;
  Config_Kinds : gmap string Kind;

  Config_TimeoutTime : time.Duration;
  Config_GossipInterval : time.Duration;
  Config_GossipRequestTimeout : time.Duration;
  Config_GossipFanOut : Z;
  Config_GossipMaxSend : Z
}.

(** A [ConfigOption] mutates the configuration it is given; it has no
    result and no error to return. *)
Definition ConfigOption : Type := Config → Config.

Definition Config_setRequestTimeoutTime (t : time.Duration) (c : Config) : Config :=
  {| Config_Name := Config_Name c;
     Config_Address := Config_Address c;
     Config_ClusterProvider := Config_ClusterProvider c;
     Config_IdentityLookup := Config_IdentityLookup c;
     Config_RemoteConfig := Config_RemoteConfig c;
     Config_RequestTimeoutTime := t;
     Config_RequestsLogThrottlePeriod := Config_RequestsLogThrottlePeriod c;
     Config_MaxNumberOfEventsInRequestLogThrottledPeriod :=
       Config_MaxNumberOfEventsInRequestLogThrottledPeriod c;
     Config_ClusterContextProducer := Config_ClusterContextProducer c;
     Config_MemberStrategyBuilder := Config_MemberStrategyBuilder c;
     Config_Kinds := Config_Kinds c;
     Config_TimeoutTime := Config_TimeoutTime c;
     Config_GossipInterval := Config_GossipInterval c;
     Config_GossipRequestTimeout := Config_GossipRequestTimeout c;
     Config_GossipFanOut := Config_GossipFanOut c;
     Config_GossipMaxSend := Config_GossipMaxSend c |}.

Definition Config_setRequestsLogThrottlePeriod (period : time.Duration) (c : Config) : Config :=
  {| Config_Name := Config_Name c;
     Config_Address := Config_Address c;
     Config_ClusterProvider := Config_ClusterProvider c;
     Config_IdentityLookup := Config_IdentityLookup c;
     Config_RemoteConfig := Config_RemoteConfig c;
     Config_RequestTimeoutTime := Config_RequestTimeoutTime c;
     Config_RequestsLogThrottlePeriod := period;
     Config_MaxNumberOfEventsInRequestLogThrottledPeriod :=
       Config_MaxNumberOfEventsInRequestLogThrottledPeriod c;
     Config_ClusterContextProducer := Config_ClusterContextProducer c;
     Config_MemberStrategyBuilder := Config_MemberStrategyBuilder c;
     Config_Kinds := Config_Kinds c;
     Config_TimeoutTime := Config_TimeoutTime c;
     Config_GossipInterval := Config_GossipInterval c;
     Config_GossipRequestTimeout := Config_GossipRequestTimeout c;
     Config_GossipFanOut := Config_GossipFanOut c;
     Config_GossipMaxSend := Config_GossipMaxSend c |}.

Definition Config_setClusterContextProducer (producer : Cluster → ClusterContext)
    (c : Config) : Config :=
  {| Config_Name := Config_Name c;
     Config_Address := Config_Address c;
     Config_ClusterProvider := Config_ClusterProvider c;
     Config_IdentityLookup := Config_IdentityLookup c;
     Config_RemoteConfig := Config_RemoteConfig c;
     Config_RequestTimeoutTime := Config_RequestTimeoutTime c;
     Config_RequestsLogThrottlePeriod := Config_RequestsLogThrottlePeriod c;
     Config_MaxNumberOfEventsInRequestLogThrottledPeriod :=
       Config_MaxNumberOfEventsInRequestLogThrottledPeriod c;
     Config_ClusterContextProducer := producer;
     Config_MemberStrategyBuilder := Config_MemberStrategyBuilder c;
     Config_Kinds := Config_Kinds c;
     Config_TimeoutTime := Config_TimeoutTime c;
     Config_GossipInterval := Config_GossipInterval c;
     Config_GossipRequestTimeout := Config_GossipRequestTimeout c;
     Config_GossipFanOut := Config_GossipFanOut c;
     Config_GossipMaxSend := Config_GossipMaxSend c |}.

Definition Config_setMaxNumberOfEventsInRequestLogThrottledPeriod (maxNumber : Z)
    (c : Config) : Config :=
  {| Config_Name := Config_Name c;
     Config_Address := Config_Address c;
     Config_ClusterProvider := Config_ClusterProvider c;
     Config_IdentityLookup := Config_IdentityLookup c;
     Config_RemoteConfig := Config_RemoteConfig c;
     Config_RequestTimeoutTime := Config_RequestTimeoutTime c;
     Config_RequestsLogThrottlePeriod := Config_RequestsLogThrottlePeriod c;
     Config_MaxNumberOfEventsInRequestLogThrottledPeriod := maxNumber;
     Config_ClusterContextProducer := Config_ClusterContextProducer c;
     Config_MemberStrategyBuilder := Config_MemberStrategyBuilder c;
     Config_Kinds := Config_Kinds c;
     Config_TimeoutTime := Config_TimeoutTime c;
     Config_GossipInterval := Config_GossipInterval c;
     Config_GossipRequestTimeout := Config_GossipRequestTimeout c;
     Config_GossipFanOut := Config_GossipFanOut c;
     Config_GossipMaxSend := Config_GossipMaxSend c |}.

Definition Config_setKinds (kinds : gmap string Kind) (c : Config) : Config :=
  {| Config_Name := Config_Name c;
     Config_Address := Config_Address c;
     Config_ClusterProvider := Config_ClusterProvider c;
     Config_IdentityLookup := Config_IdentityLookup c;
     Config_RemoteConfig := Config_RemoteConfig c;
     Config_RequestTimeoutTime := Config_RequestTimeoutTime c;
     Config_RequestsLogThrottlePeriod := Config_RequestsLogThrottlePeriod c;
     Config_MaxNumberOfEventsInRequestLogThrottledPeriod :=
       Config_MaxNumberOfEventsInRequestLogThrottledPeriod c;
     Config_ClusterContextProducer := Config_ClusterContextProducer c;
     Config_MemberStrategyBuilder := Config_MemberStrategyBuilder c;
     Config_Kinds := kinds;
     Config_TimeoutTime := Config_TimeoutTime c;
     Config_GossipInterval := Config_GossipInterval c;
     Config_GossipRequestTimeout := Config_GossipRequestTimeout c;
     Config_GossipFanOut := Config_GossipFanOut c;
     Config_GossipMaxSend := Config_GossipMaxSend c |}.

Section Configure.

(** Package-level defaults of [cluster] that are declared outside
    [config.go]. *)
Variable defaultActorRequestTimeout : time.Duration.
Variable defaultRequestsLogThrottlePeriod : time.Duration.
Variable defaultMaxNumberOfEvetsInRequestLogThrottledPeriod : Z.
Variable newDefaultMemberStrategy : Cluster → string → MemberStrategy.
Variable newDefaultClusterContext : Cluster → ClusterContext.

Definition Configure (clusterName : string) (clusterProvider : ClusterProvider)
    (identityLookup : IdentityLookup) (remoteConfig : RemoteConfig)
    (options : list ConfigOption) : Config :=
  let config :=
    {| Config_Name := clusterName;
       Config_Address := "";
       Config_ClusterProvider := clusterProvider;
       Config_IdentityLookup := identityLookup;
       Config_RequestTimeoutTime := defaultActorRequestTimeout;
       Config_RequestsLogThrottlePeriod := defaultRequestsLogThrottlePeriod;
       Config_MemberStrategyBuilder := newDefaultMemberStrategy;
       Config_RemoteConfig := remoteConfig;
       Config_Kinds := ∅;
       Config_ClusterContextProducer := newDefaultClusterContext;
       Config_MaxNumberOfEventsInRequestLogThrottledPeriod :=
         defaultMaxNumberOfEvetsInRequestLogThrottledPeriod;
       Config_TimeoutTime := time.mul time.Second 5;
       Config_GossipInterval := time.mul time.Millisecond 300;
       Config_GossipRequestTimeout := time.mul time.Millisecond 500;
       Config_GossipFanOut := 3;
       Config_GossipMaxSend := 50 |} in
  foldl (fun config option => option config) config options.

End Configure.

(** WithRequestTimeout sets the request timeout *)
Definition WithRequestTimeout (t : time.Duration) : ConfigOption :=
  fun c => Config_setRequestTimeoutTime t c.

(** WithRequestsLogThrottlePeriod sets the requests log throttle period *)
Definition WithRequestsLogThrottlePeriod (period : time.Duration) : ConfigOption :=
  fun c => Config_setRequestsLogThrottlePeriod period c.

(** WithClusterContextProducer sets the cluster context producer *)
Definition WithClusterContextProducer (producer : Cluster → ClusterContext) : ConfigOption :=
  fun c => Config_setClusterContextProducer producer c.

(** WithMaxNumberOfEventsInRequestLogThrottlePeriod sets the max number of
    events in request log throttled period *)
Definition WithMaxNumberOfEventsInRequestLogThrottlePeriod (maxNumber : Z) : ConfigOption :=
  fun c => Config_setMaxNumberOfEventsInRequestLogThrottledPeriod maxNumber c.

(** [c.Kinds[kind.Kind] = kind] for each kind, in argument order. [Configure]
    allocates the map, so the assignment always has a map to write to. *)
Definition WithKinds (kinds : list Kind) : ConfigOption :=
  fun c =>
    foldl (fun c kind => Config_setKinds (<[Kind_Kind kind := kind]> (Config_Kinds c)) c)
          c kinds.

Record ClusterContextConfig : Type := {
  ClusterContextConfig_ActorRequestTimeout : time.Duration;
  ClusterContextConfig_RequestsLogThrottlePeriod : time.Duration;
  ClusterContextConfig_MaxNumberOfEventsInRequestLogThrottledPeriod : Z
}.

Definition ToClusterContextConfig (c : Config) : ClusterContextConfig :=
  {| ClusterContextConfig_ActorRequestTimeout := Config_RequestTimeoutTime c;
     ClusterContextConfig_RequestsLogThrottlePeriod := Config_RequestsLogThrottlePeriod c;
     ClusterContextConfig_MaxNumberOfEventsInRequestLogThrottledPeriod :=
       Config_MaxNumberOfEventsInRequestLogThrottledPeriod c |}.

Section Middleware.

(** Modelled from the spec: [GetCluster] is declared outside [config.go].
    "Given a hosting actor-system reference, returns the one live cluster
    instance associated with it." *)
Variable GetCluster : ActorSystem → Cluster.

Definition handleStopped (c : ReceiverContext) (next : ReceiverFunc)
    (envelope : MessageEnvelope) (w : World) : World :=
  let cl := GetCluster (ReceiverContext_ActorSystem c) in
  let identity := GetClusterIdentity c w in
  let w :=
    match identity with
    | Some identity =>
        let w :=
          EventStream_Publish (ActorSystem_EventStream (Cluster_ActorSystem cl))
            (EvActivationTerminating
               {| ActivationTerminating_Pid := ReceiverContext_Self c;
                  ActivationTerminating_ClusterIdentity := identity |}) w in
        PidCache_RemoveByValue (Cluster_PidCache cl)
          (ClusterIdentity_Identity identity) (ClusterIdentity_Kind identity)
          (ReceiverContext_Self c) w
    | None => w
    end in
  next c envelope w.

Definition handleStarted (c : ReceiverContext) (next : ReceiverFunc)
    (envelope : MessageEnvelope) (w : World) : World :=
  let w := next c envelope w in
  let cl := GetCluster (ReceiverContext_ActorSystem c) in
  let identity := GetClusterIdentity c w in
  let grainInit :=
    {| ClusterInit_Identity := identity;
       ClusterInit_Cluster := cl |} in
  let ge := WrapEnvelope (MsgClusterInit grainInit) in
  next c ge w.

(** The function literal that [withClusterReceiveMiddleware] hands to
    [actor.WithReceiverMiddleware]; the match is its type switch. *)
Definition clusterReceiveMiddleware : ReceiverMiddleware :=
  fun next =>
    fun c envelope w =>
      match MessageEnvelope_Message envelope with
      | Started => handleStarted c next envelope w
      | Stopped => handleStopped c next envelope w
      | _ => next c envelope w
      end.

Definition withClusterReceiveMiddleware : PropsOption :=
  WithReceiverMiddleware clusterReceiveMiddleware.

(** Creates a new instance of a kind *)
Definition NewKind (kind : string) (props : Props) : Kind :=
  let p := Props_Clone props [withClusterReceiveMiddleware] in
  {| Kind_Kind := kind;
     Kind_Props := p;
     Kind_StrategyBuilder := None |}.

End Middleware.

Definition WithClusterIdentity (props : Props) (ci : ClusterIdentity) : Props :=
  Props_Clone props [WithOnInit (fun ctx w => Context_Set ctx ci w)].

(** [k.StrategyBuilder = strategyBuilder]: the argument is stored as it is,
    nil included. *)
Definition WithMemberStrategy (k : Kind)
    (strategyBuilder : option (Cluster → option MemberStrategy)) : Kind :=
  {| Kind_Kind := Kind_Kind k;
     Kind_Props := Kind_Props k;
     Kind_StrategyBuilder := strategyBuilder |}.

Record ActivatedKind : Type := {
  ActivatedKind_Kind : string;
  ActivatedKind_Props : Props;
  ActivatedKind_Strategy : option MemberStrategy;
  ActivatedKind_count : Z
}.

Definition Kind_Build (k : Kind) (cluster : Cluster) : ActivatedKind :=
  let strategy :=
    match Kind_StrategyBuilder k with
    | Some builder => builder cluster
    | None => None
    end in
  {| ActivatedKind_Kind := Kind_Kind k;
     ActivatedKind_Props := Kind_Props k;
     ActivatedKind_Strategy := strategy;
     ActivatedKind_count := 0 |}.

Definition ActivatedKind_setCount (count : Z) (ak : ActivatedKind) : ActivatedKind :=
  {| ActivatedKind_Kind := ActivatedKind_Kind ak;
     ActivatedKind_Props := ActivatedKind_Props ak;
     ActivatedKind_Strategy := ActivatedKind_Strategy ak;
     ActivatedKind_count := count |}.

Definition Inc (ak : ActivatedKind) : ActivatedKind :=
  ActivatedKind_setCount (atomic.AddInt32 (ActivatedKind_count ak) 1) ak.

Definition Dev (ak : ActivatedKind) : ActivatedKind :=
  ActivatedKind_setCount (atomic.AddInt32 (ActivatedKind_count ak) (-1)) ak.

(** *** Callers of [Inc] and [Dev]

    Each call is one atomic step on the shared counter. Goroutines that
    call concurrently are therefore observed as one sequence of calls: an
    interleaving of the sequences the goroutines issue. *)

Inductive CounterCall : Type := CallInc | CallDev.

#[global] Instance CounterCall_eq_dec : EqDecision CounterCall.
Proof. solve_decision. Defined.

Definition call (ak : ActivatedKind) (m : CounterCall) : ActivatedKind :=
  match m with
  | CallInc => Inc ak
  | CallDev => Dev ak
  end.

Definition calls (ms : list CounterCall) (ak : ActivatedKind) : ActivatedKind :=
  foldl call ak ms.

(** How often [m] occurs in a sequence of calls. *)
Definition occurrences (m : CounterCall) (ms : list CounterCall) : nat :=
  length (filter (λ x, x = m) ms).

(** [interleaving goroutines ms]: [ms] takes the pending first call of some
    goroutine at every step, until none has a call left. *)
Inductive interleaving : list (list CounterCall) → list CounterCall → Prop :=
| interleaving_done goroutines :
    Forall (λ pending, pending = []) goroutines →
    interleaving goroutines []
| interleaving_step goroutines i m pending ms :
    goroutines !! i = Some (m :: pending) →
    interleaving (<[i := pending]> goroutines) ms →
    interleaving goroutines (m :: ms).

(** The number of [Inc] calls minus the number of [Dev] calls. *)
Definition net (ms : list CounterCall) : Z :=
  (Z.of_nat (occurrences CallInc ms) - Z.of_nat (occurrences CallDev ms))%Z.

(** *** The options of [config.go], as calls

    A caller of [Configure] builds its options with the five constructors of
    this file; [OptionCall] names such a call and [option_of] is the option
    it evaluates to. *)

Inductive OptionCall : Type :=
| CallWithRequestTimeout (t : time.Duration)
| CallWithRequestsLogThrottlePeriod (period : time.Duration)
| CallWithClusterContextProducer (producer : Cluster → ClusterContext)
| CallWithMaxNumberOfEventsInRequestLogThrottlePeriod (maxNumber : Z)
| CallWithKinds (kinds : list Kind).

Definition option_of (call : OptionCall) : ConfigOption :=
  match call with
  | CallWithRequestTimeout t => WithRequestTimeout t
  | CallWithRequestsLogThrottlePeriod period => WithRequestsLogThrottlePeriod period
  | CallWithClusterContextProducer producer => WithClusterContextProducer producer
  | CallWithMaxNumberOfEventsInRequestLogThrottlePeriod maxNumber =>
      WithMaxNumberOfEventsInRequestLogThrottlePeriod maxNumber
  | CallWithKinds kinds => WithKinds kinds
  end.

(** The arguments of the calls of one constructor, in call order. *)
Definition requestTimeouts (calls : list OptionCall) : list time.Duration :=
  omap (λ call, match call with CallWithRequestTimeout t => Some t | _ => None end) calls.

Definition throttlePeriods (calls : list OptionCall) : list time.Duration :=
  omap (λ call, match call with
                | CallWithRequestsLogThrottlePeriod period => Some period
                | _ => None
                end) calls.

Definition contextProducers (calls : list OptionCall) : list (Cluster → ClusterContext) :=
  omap (λ call, match call with
                | CallWithClusterContextProducer producer => Some producer
                | _ => None
                end) calls.

Definition maxNumbers (calls : list OptionCall) : list Z :=
  omap (λ call, match call with
                | CallWithMaxNumberOfEventsInRequestLogThrottlePeriod maxNumber => Some maxNumber
                | _ => None
                end) calls.

(** All kinds registered by the calls, in registration order. *)
Definition registeredKinds (calls : list OptionCall) : list Kind :=
  mjoin (omap (λ call, match call with CallWithKinds kinds => Some kinds | _ => None end) calls).

(** The [int32] values. *)
Definition isInt32 (z : Z) : Prop := (- 2 ^ 31 ≤ z < 2 ^ 31)%Z.

End cluster.

(** ** Package [main] of [protoc-gen-go-grain]: [generate.go] *)

Module protoc_gen_go_grain.

(** *** What the generator reads of [protogen], [protoreflect] and the
    grain options *)

Record GoIdent : Type := {
  GoIdent_GoName : string;
  GoIdent_GoImportPath : string
}.

(** [options.MethodOptions]: the message behind the method annotation
    [(options.method_options)]. *)
Record MethodOptions : Type := {
  MethodOptions_Reenterable : bool
}.

(** Modelled from the spec: [MethodOptions.GetReenterable] is generated
    code outside [generate.go]; the annotation is "reenterable (boolean,
    default false)", and the getter gives that default on a nil receiver. *)
Definition GetReenterable (x : option MethodOptions) : bool :=
  match x with
  | Some o => MethodOptions_Reenterable o
  | None => false
  end.

(** [descriptorpb.MethodOptions] with its extension field
    [options.method_options], unset when the method has no such
    annotation. *)
Record descriptorpb_MethodOptions : Type := {
  descriptorpb_MethodOptions_Deprecated : option bool;
  descriptorpb_MethodOptions_method_options : option MethodOptions
}.

Record descriptorpb_ServiceOptions : Type := {
  descriptorpb_ServiceOptions_Deprecated : option bool
}.

Definition ServiceOptions_GetDeprecated (x : option descriptorpb_ServiceOptions) : bool :=
  match x with
  | Some o => default false (descriptorpb_ServiceOptions_Deprecated o)
  | None => false
  end.

(** [protoreflect.MethodDescriptor]; [Options()] is nil for a method
    declared without options. *)
Record MethodDescriptor : Type := {
  IsStreamingClient : bool;
  IsStreamingServer : bool;
  MethodDescriptor_Options : option descriptorpb_MethodOptions
}.

Record Method : Type := {
  Method_Desc : MethodDescriptor;
  Method_GoName : string;
  Method_Input : GoIdent;
  Method_Output : GoIdent
}.

Record Service : Type := {
  Service_Options : option descriptorpb_ServiceOptions;
  Service_GoName : string;
  Service_Methods : list Method
}.

(** A value of static type [interface{}], by its dynamic type. *)
Inductive any : Type :=
| AnyMethodOptions (p : option MethodOptions)
| AnyOther (typeName : string).

(** [proto.GetExtension(m, options.E_MethodOptions)]: the value of the
    extension field, of the Go type of the extension,
    [*options.MethodOptions]; the nil pointer of that type when the field
    is unset or [m] is nil. *)
Definition GetExtension_E_MethodOptions (m : option descriptorpb_MethodOptions) : any :=
  AnyMethodOptions (m ≫= descriptorpb_MethodOptions_method_options).

(** The two-result type assertion of [v] to the pointer type
    [*options.MethodOptions]. *)
Definition assertMethodOptions (v : any) : option MethodOptions * bool :=
  match v with
  | AnyMethodOptions p => (p, true)
  | AnyOther _ => (None, false)
  end.

(** [methodDesc] and [serviceDesc] are declared next to the template, outside
    [generate.go]; these are the fields [generateService] assigns. *)
Record methodDesc : Type := {
  methodDesc_Name : string;
  methodDesc_Input : string;
  methodDesc_Output : string;
  methodDesc_Index : nat;
  methodDesc_Reenterable : bool
}.

Record serviceDesc : Type := {
  serviceDesc_Name : string;
  serviceDesc_Methods : list methodDesc
}.

Definition deprecationComment : string := "// Deprecated: Do not use.".

(** [protogen.GeneratedFile], as the lines printed so far. *)
Definition GeneratedFile : Type := list string.

Definition P (g : GeneratedFile) (line : string) : GeneratedFile := g ++ [line].

Section generateService.

(** [g.QualifiedGoIdent]: the name under which the generated file refers
    to an identifier (the import it notes down is not modelled). *)
Variable QualifiedGoIdent : GoIdent → string.

(** [sd.execute()]: the template, declared outside [generate.go]. *)
Variable execute : serviceDesc → string.

(** The body of [for i, method := range service.Methods], from index [i]
    on. *)
Fixpoint rangeMethods (i : nat) (methods : list Method) (sd : serviceDesc) : serviceDesc :=
  match methods with
  | [] => sd
  | method :: methods =>
      if IsStreamingClient (Method_Desc method) || IsStreamingServer (Method_Desc method)
      then rangeMethods (S i) methods sd
      else
        let '(methodOptions, ok) :=
          assertMethodOptions
            (GetExtension_E_MethodOptions (MethodDescriptor_Options (Method_Desc method))) in
        if negb ok then rangeMethods (S i) methods sd
        else
          let md :=
            {| methodDesc_Name := Method_GoName method;
               methodDesc_Input := QualifiedGoIdent (Method_Input method);
               methodDesc_Output := QualifiedGoIdent (Method_Output method);
               methodDesc_Index := i;
               methodDesc_Reenterable := GetReenterable methodOptions |} in
          rangeMethods (S i) methods
            {| serviceDesc_Name := serviceDesc_Name sd;
               serviceDesc_Methods := serviceDesc_Methods sd ++ [md] |}
  end.

(** The [serviceDesc] that [generateService] has built when its loop
    ends. *)
Definition describeService (service : Service) : serviceDesc :=
  let sd := {| serviceDesc_Name := Service_GoName service;
               serviceDesc_Methods := [] |} in
  rangeMethods 0 (Service_Methods service) sd.

Definition generateService (service : Service) (g : GeneratedFile) : GeneratedFile :=
  let g :=
    if ServiceOptions_GetDeprecated (Service_Options service)
    then P (P g "//") deprecationComment
    else g in
  let sd := describeService service in
  if bool_decide (length (serviceDesc_Methods sd) ≠ 0)
  then P g (execute sd)
  else g.

End generateService.

(** *** The service definition of the reentrancy example *)

Definition reentrancy_main : string :=
  "github.com/asynkron/protoactor-go/_examples/cluster-reentrancy/main".

Definition Hello : Service :=
  {| Service_Options := None;
     Service_GoName := "Hello";
     Service_Methods :=
       [ {| Method_Desc :=
              {| IsStreamingClient := false;
                 IsStreamingServer := false;
                 MethodDescriptor_Options :=
                   Some {| descriptorpb_MethodOptions_Deprecated := None;
                           descriptorpb_MethodOptions_method_options :=
                             Some {| MethodOptions_Reenterable := true |} |} |};
            Method_GoName := "InvokeService";
            Method_Input := {| GoIdent_GoName := "InvokeServiceRequest";
                               GoIdent_GoImportPath := reentrancy_main |};
            Method_Output := {| GoIdent_GoName := "InvokeServiceResponse";
                                GoIdent_GoImportPath := reentrancy_main |} |};
         {| Method_Desc :=
              {| IsStreamingClient := false;
                 IsStreamingServer := false;
                 MethodDescriptor_Options := None |};
            Method_GoName := "DoWork";
            Method_Input := {| GoIdent_GoName := "DoWorkRequest";
                               GoIdent_GoImportPath := reentrancy_main |};
            Method_Output := {| GoIdent_GoName := "DoWorkResponse";
                                GoIdent_GoImportPath := reentrancy_main |} |} ] |}.

(** *** The words of the specification, for comparison *)

(** "Streaming declarations are legal in the definition but produce no
    generated dispatch code." *)
Definition streaming (method : Method) : bool :=
  IsStreamingClient (Method_Desc method) || IsStreamingServer (Method_Desc method).

(** "One recognized annotation, reenterable (boolean, default false)". *)
Definition reenterable_annotation (method : Method) : option bool :=
  options ← MethodDescriptor_Options (Method_Desc method);
  annotation ← descriptorpb_MethodOptions_method_options options;
  Some (MethodOptions_Reenterable annotation).

(** The descriptor the specification expects for the method declared at
    position [i]: its position is kept as the index, and the flag is the
    annotation or, without one, [false]. *)
Definition descriptorAt (QualifiedGoIdent : GoIdent → string) (i : nat) (method : Method)
    : methodDesc :=
  {| methodDesc_Name := Method_GoName method;
     methodDesc_Input := QualifiedGoIdent (Method_Input method);
     methodDesc_Output := QualifiedGoIdent (Method_Output method);
     methodDesc_Index := i;
     methodDesc_Reenterable := default false (reenterable_annotation method) |}.

(** *** The rest of [generate.go]: header, content and file *)

(** [pluginpb.Version], the compiler version of the request; its fields are
    optional and the getters give 0 and the empty string when unset. *)
Record Version : Type := {
  Version_Major : option Z;
  Version_Minor : option Z;
  Version_Patch : option Z;
  Version_Suffix : option string
}.

Definition GetMajor (v : Version) : Z := default 0%Z (Version_Major v).
Definition GetMinor (v : Version) : Z := default 0%Z (Version_Minor v).
Definition GetPatch (v : Version) : Z := default 0%Z (Version_Patch v).
Definition GetSuffix (v : Version) : string := default "" (Version_Suffix v).

Record descriptorpb_FileOptions : Type := {
  descriptorpb_FileOptions_Deprecated : option bool
}.

Definition FileOptions_GetDeprecated (x : option descriptorpb_FileOptions) : bool :=
  match x with
  | Some o => default false (descriptorpb_FileOptions_Deprecated o)
  | None => false
  end.

(** [protogen.File]: what [generate.go] reads of it. *)
Record File : Type := {
  File_Desc_Path : string;
  File_Proto_Options : option descriptorpb_FileOptions;
  File_GoPackageName : string;
  File_GoImportPath : string;
  File_GeneratedFilenamePrefix : string;
  File_Services : list Service
}.

(** *** The imports of a generated file

    Besides the lines printed with [g.P], a [protogen.GeneratedFile] keeps
    the import paths that [g.QualifiedGoIdent] has noted down, from which
    the import block of the written file is made. Printing and noting do
    not depend on each other; the lines are threaded by [generateService] and
    [generateContent], the imports by the functions below, over the same
    statements of [generate.go]. *)

Definition timePackage : string := "time".
Definition errorsPackage : string := "errors".
Definition fmtPackage : string := "fmt".
Definition slogPackage : string := "log/slog".
Definition protoPackage : string := "google.golang.org/protobuf/proto".
Definition actorPackage : string := "github.com/asynkron/protoactor-go/actor".
Definition clusterPackage : string := "github.com/asynkron/protoactor-go/cluster".

(** [importPath.Ident(name)] *)
Definition Ident (importPath name : string) : GoIdent :=
  {| GoIdent_GoName := name; GoIdent_GoImportPath := importPath |}.

(** What [g.QualifiedGoIdent(ident)] does to the imports of a file generated
    for the package [goImportPath]: an identifier of that package needs no
    import, the import path of any other identifier is noted down. *)
Definition noteImport (goImportPath : string) (imports : gset string) (ident : GoIdent)
    : gset string :=
  if bool_decide (GoIdent_GoImportPath ident = goImportPath) then imports
  else {[ GoIdent_GoImportPath ident ]} ∪ imports.

(** The imports noted by the loop of [generateService]: the input and the
    output type of every method that gets a descriptor. *)
Fixpoint rangeMethods_imports (goImportPath : string) (methods : list Method)
    (imports : gset string) : gset string :=
  match methods with
  | [] => imports
  | method :: methods =>
      if IsStreamingClient (Method_Desc method) || IsStreamingServer (Method_Desc method)
      then rangeMethods_imports goImportPath methods imports
      else
        let '(methodOptions, ok) :=
          assertMethodOptions
            (GetExtension_E_MethodOptions (MethodDescriptor_Options (Method_Desc method))) in
        if negb ok then rangeMethods_imports goImportPath methods imports
        else
          let imports := noteImport goImportPath imports (Method_Input method) in
          let imports := noteImport goImportPath imports (Method_Output method) in
          rangeMethods_imports goImportPath methods imports
  end.

Definition generateService_imports (goImportPath : string) (service : Service)
    (imports : gset string) : gset string :=
  rangeMethods_imports goImportPath (Service_Methods service) imports.

(** The imports noted by [generateContent]: none for a file without
    services; otherwise the six packages that the template refers to, and
    then those of the services. *)
Definition generateContent_imports (goImportPath : string) (imports : gset string)
    (file : File) : gset string :=
  if bool_decide (length (File_Services file) = 0) then imports
  else
    let imports := noteImport goImportPath imports (Ident actorPackage "") in
    let imports := noteImport goImportPath imports (Ident clusterPackage "") in
    let imports := noteImport goImportPath imports (Ident protoPackage "") in
    let imports := noteImport goImportPath imports (Ident fmtPackage "") in
    let imports := noteImport goImportPath imports (Ident timePackage "") in
    let imports := noteImport goImportPath imports (Ident slogPackage "") in
    foldl (fun imports service => generateService_imports goImportPath service imports)
          imports (File_Services file).

(** A file that the plugin has created with [NewGeneratedFile], with the
    lines printed into it and the imports noted down for it. *)
Record Generated : Type := {
  Generated_filename : string;
  Generated_goImportPath : string;
  Generated_lines : GeneratedFile;
  Generated_imports : gset string
}.

(** [protogen.Plugin]: the compiler version of its request and the files
    generated so far. *)
Record Plugin : Type := {
  Plugin_CompilerVersion : option Version;
  Plugin_genFiles : list Generated
}.

Section generateFile.

Variable QualifiedGoIdent : GoIdent → string.
Variable execute : serviceDesc → string.

(** The constant [version] of the generator, declared outside
    [generate.go]. *)
Variable version : string.

(** The local [protocVersion] of [generateHeader]; [%v] prints an [int32] in
    decimal. *)
Definition protocVersion (gen : Plugin) : string :=
  match Plugin_CompilerVersion gen with
  | Some v =>
      let protocVersion :=
        "v" +:+ pretty (GetMajor v) +:+ "." +:+ pretty (GetMinor v)
            +:+ "." +:+ pretty (GetPatch v) in
      let s := GetSuffix v in
      if bool_decide (s ≠ "") then protocVersion +:+ "-" +:+ s else protocVersion
  | None => "(unknown)"
  end.

Definition generateHeader (gen : Plugin) (g : GeneratedFile) (file : File) : GeneratedFile :=
  let g := P g "// Code generated by protoc-gen-grain. DO NOT EDIT." in
  let g := P g "// versions:" in
  let g := P g ("//  protoc-gen-grain " +:+ version) in
  let g := P g ("//  protoc           " +:+ protocVersion gen) in
  let g :=
    if FileOptions_GetDeprecated (File_Proto_Options file)
    then P g ("// " +:+ File_Desc_Path file +:+ " is a deprecated file.")
    else P g ("// source: " +:+ File_Desc_Path file) in
  P g "".

(** The lines that [generateContent] prints. Its six [g.QualifiedGoIdent]
    calls print nothing; they are in [generateContent_imports]. *)
Definition generateContent (g : GeneratedFile) (file : File) : GeneratedFile :=
  let g := P g ("package " +:+ File_GoPackageName file) in
  let g := P g "" in
  if bool_decide (length (File_Services file) = 0) then g
  else foldl (fun g service => generateService QualifiedGoIdent execute service g)
             g (File_Services file).

Definition generateFile (gen : Plugin) (file : File) : Plugin :=
  if bool_decide (length (File_Services file) = 0) then gen
  else
    let filename := File_GeneratedFilenamePrefix file +:+ "_grain.pb.go" in
    let g : GeneratedFile := [] in
    let g := generateHeader gen g file in
    let g := generateContent g file in
    {| Plugin_CompilerVersion := Plugin_CompilerVersion gen;
       Plugin_genFiles :=
         Plugin_genFiles gen
         ++ [ {| Generated_filename := filename;
                 Generated_goImportPath := File_GoImportPath file;
                 Generated_lines := g;
                 Generated_imports :=
                   generateContent_imports (File_GoImportPath file) ∅ file |} ] |}.

End generateFile.

(** The file of the reentrancy example. *)
Definition reentrancy_proto : File :=
  {| File_Desc_Path := "reentrancy.proto";
     File_Proto_Options := None;
     File_GoPackageName := "main";
     File_GoImportPath := reentrancy_main;
     File_GeneratedFilenamePrefix := "reentrancy";
     File_Services := [Hello] |}.

(** The packages that [generateContent] has every file with services
    import. *)
Definition contentPackages : list string :=
  [actorPackage; clusterPackage; protoPackage; fmtPackage; timePackage; slogPackage].

(** The identifiers that the descriptor of a method qualifies: its input
    and its output type, when the method is not streaming. *)
Definition qualifiedIdents (method : Method) : list GoIdent :=
  if streaming method then [] else [Method_Input method; Method_Output method].

(** A service with one client-streaming method, and a file that has only
    this service. *)
Definition Uploads : Service :=
  {| Service_Options := None;
     Service_GoName := "Uploads";
     Service_Methods :=
       [ {| Method_Desc := {| IsStreamingClient := true;
                              IsStreamingServer := false;
                              MethodDescriptor_Options := None |};
            Method_GoName := "Upload";
            Method_Input := {| GoIdent_GoName := "Chunk";
                               GoIdent_GoImportPath := reentrancy_main |};
            Method_Output := {| GoIdent_GoName := "Done";
                                GoIdent_GoImportPath := reentrancy_main |} |} ] |}.

Definition uploads_proto : File :=
  {| File_Desc_Path := "uploads.proto";
     File_Proto_Options := None;
     File_GoPackageName := "main";
     File_GoImportPath := reentrancy_main;
     File_GeneratedFilenamePrefix := "uploads";
     File_Services := [Uploads] |}.

Definition freshPlugin : Plugin :=
  {| Plugin_CompilerVersion :=
       Some {| Version_Major := Some 4%Z;
               Version_Minor := Some 25%Z;
               Version_Patch := None;
               Version_Suffix := Some "rc1" |};
     Plugin_genFiles := [] |}.

End protoc_gen_go_grain.

(** ** A small cluster to evaluate the definitions on *)

Module examples.
Import cluster.

Definition system : ActorSystem :=
  {| ActorSystem_ID := "sys"; ActorSystem_EventStream := 1%N |}.

Definition theCluster : Cluster :=
  {| Cluster_ActorSystem := system; Cluster_PidCache := 2%N |}.

Definition GetCluster (actorSystem : ActorSystem) : Cluster :=
  {| Cluster_ActorSystem := actorSystem; Cluster_PidCache := 2%N |}.

Definition user1 : ClusterIdentity :=
  {| ClusterIdentity_Identity := "user-1"; ClusterIdentity_Kind := "Hello" |}.

Definition pid1 : PID :=
  {| PID_Address := "127.0.0.1:8080"; PID_Id := "partition-activator/user-1" |}.
Definition pid2 : PID :=
  {| PID_Address := "127.0.0.1:8081"; PID_Id := "partition-activator/user-1" |}.

Definition ctx1 : ReceiverContext :=
  {| ReceiverContext_id := 10%N;
     ReceiverContext_Self := pid1;
     ReceiverContext_ActorSystem := system |}.

Definition envelopeOf (message : Message) : MessageEnvelope :=
  {| MessageEnvelope_Header := None;
     MessageEnvelope_Message := message;
     MessageEnvelope_Sender := None |}.

(** Nothing attached, nothing published, nothing cached. *)
Definition emptyWorld : World :=
  {| World_extensions := ∅;
     World_streams := ∅;
     World_caches := ∅;
     World_trace := [] |}.

Definition plainProps : Props :=
  {| Props_producer := 20%N;
     Props_receiverMiddleware := [];
     Props_onInit := [] |}.

Definition otherProps : Props :=
  {| Props_producer := 21%N;
     Props_receiverMiddleware := [];
     Props_onInit := [] |}.

Definition helloKind : Kind := NewKind GetCluster "Hello" plainProps.
Definition helloKind' : Kind := NewKind GetCluster "Hello" otherProps.

(** The activation of [user1] on [ctx1]: the identity has been attached by
    the init hook of [WithClusterIdentity] and the process is cached. *)
Definition activatedWorld : World :=
  let w := Props_runInit (WithClusterIdentity (Kind_Props helloKind) user1) ctx1 emptyWorld in
  {| World_extensions := World_extensions w;
     World_streams := World_streams w;
     World_caches := {[ 2%N := {[ ("user-1", "Hello") := pid1 ]} ]};
     World_trace := World_trace w |}.

Definition worldKind : Kind := NewKind GetCluster "World" otherProps.

(** The same activation after a newer activation of [user1], on another
    member, has taken over the cache entry. *)
Definition supersededWorld : World :=
  {| World_extensions := World_extensions activatedWorld;
     World_streams := World_streams activatedWorld;
     World_caches := {[ 2%N := {[ ("user-1", "Hello") := pid2 ]} ]};
     World_trace := World_trace activatedWorld |}.

End examples.

(** * Properties *)

(** ** The live counter of [ActivatedKind] *)

Section counter.
Import cluster.
Local Open Scope Z_scope.

Lemma wrapInt32_small z : - 2 ^ 31 ≤ z < 2 ^ 31 → atomic.wrapInt32 z = z.
Proof.
  intros Hz. unfold atomic.wrapInt32.
  rewrite Z.mod_small by lia. lia.
Qed.

Lemma wrapInt32_absorb z d :
  atomic.wrapInt32 (atomic.wrapInt32 z + d) = atomic.wrapInt32 (z + d).
Proof.
  unfold atomic.wrapInt32. f_equal.
  replace ((z + 2 ^ 31) `mod` 2 ^ 32 - 2 ^ 31 + d + 2 ^ 31)
    with ((z + 2 ^ 31) `mod` 2 ^ 32 + d) by lia.
  replace (z + d + 2 ^ 31) with ((z + 2 ^ 31) + d) by lia.
  by rewrite Zplus_mod_idemp_l.
Qed.

Lemma occurrences_snoc m ms x :
  occurrences m (ms ++ [x]) = (occurrences m ms + (if decide (x = m) then 1 else 0))%nat.
Proof.
  unfold occurrences. rewrite filter_app, length_app. f_equal.
  rewrite filter_cons, filter_nil. by case_decide.
Qed.

Lemma net_snoc ms x :
  net (ms ++ [x]) = net ms + match x with CallInc => 1 | CallDev => -1 end.
Proof.
  unfold net. rewrite !occurrences_snoc.
  destruct x; repeat case_decide; try done; lia.
Qed.

Lemma calls_snoc ms x ak : calls (ms ++ [x]) ak = call (calls ms ak) x.
Proof. unfold calls. by rewrite foldl_app. Qed.

(** The counter of a freshly built [ActivatedKind] follows the calls made
    so far, modulo the width of [int32]. *)
Lemma count_calls k cl ms :
  ActivatedKind_count (calls ms (Kind_Build k cl)) = atomic.wrapInt32 (net ms).
Proof.
  induction ms as [|x ms IH] using rev_ind.
  - reflexivity.
  - rewrite calls_snoc, net_snoc.
    destruct x; simpl; unfold atomic.AddInt32; rewrite IH; apply wrapInt32_absorb.
Qed.

Lemma interleaving_Permutation goroutines ms :
  interleaving goroutines ms → ms ≡ₚ concat goroutines.
Proof.
  induction 1 as [goroutines Hdone | goroutines i m pending ms Hi _ IH].
  - induction Hdone as [|pending goroutines -> _ IH]; [done|]. simpl. exact IH.
  - rewrite IH. rewrite <- (take_drop_middle goroutines i (m :: pending)) at 2 by done.
    rewrite insert_take_drop by (eapply lookup_lt_Some; eassumption).
    rewrite !concat_app. simpl.
    by rewrite Permutation_middle.
Qed.

Lemma net_Permutation ms ms' : ms ≡ₚ ms' → net ms = net ms'.
Proof. intros H. unfold net, occurrences. by rewrite H. Qed.

(** C1, as the code has it. For every interleaving [ms] of the [Inc] and
    [Dev] calls that goroutines issue on one [ActivatedKind], and at every
    observation point (after the first [n] calls): the counter is the number
    of [Inc] calls minus the number of [Dev] calls so far, wrapped to
    [int32]; it is exactly that difference while the difference fits
    [int32]; and while the difference fits [int32], it is non-negative when
    the [Dev] calls so far do not outnumber the [Inc] calls and negative
    when they do. The difference over the whole interleaving is that of the
    goroutines' calls taken together, whatever the schedule. *)
Theorem ActivatedKind_count_follows_calls
    (k : Kind) (cl : Cluster) (goroutines : list (list CounterCall))
    (ms : list CounterCall) (n : nat) :
  interleaving goroutines ms →
  let seen := take n ms in
  let ak := calls seen (Kind_Build k cl) in
  ActivatedKind_count ak = atomic.wrapInt32 (net seen)
  ∧ (- 2 ^ 31 ≤ net seen < 2 ^ 31 → ActivatedKind_count ak = net seen)
  ∧ (0 ≤ net seen < 2 ^ 31 → 0 ≤ ActivatedKind_count ak)
  ∧ (net seen < 0 → - 2 ^ 31 ≤ net seen → ActivatedKind_count ak < 0)
  ∧ net ms = net (concat goroutines).
Proof.
  intros Hms seen ak. subst ak.
  rewrite count_calls.
  split; [done|].
  split; [intros Hfit; by apply wrapInt32_small|].
  split; [intros Hfit; rewrite wrapInt32_small; lia|].
  split; [intros Hneg Hfit; rewrite wrapInt32_small; lia|].
  apply net_Permutation, interleaving_Permutation, Hms.
Qed.

Lemma ActivatedKind_count_follows_calls_witness :
  interleaving [[CallInc; CallDev]; [CallInc]] [CallInc; CallInc; CallDev]
  ∧ ActivatedKind_count
      (calls (take 2 [CallInc; CallInc; CallDev])
         (Kind_Build examples.helloKind examples.theCluster)) = 2.
Proof.
  assert (H : interleaving [[CallInc; CallDev]; [CallInc]] [CallInc; CallInc; CallDev]).
  { apply (interleaving_step _ 0%nat CallInc [CallDev]); [reflexivity|].
    apply (interleaving_step _ 1%nat CallInc []); [reflexivity|].
    apply (interleaving_step _ 0%nat CallDev []); [reflexivity|].
    apply interleaving_done. repeat constructor. }
  split; [exact H|].
  destruct (ActivatedKind_count_follows_calls
              examples.helloKind examples.theCluster _ _ 2%nat H) as (_ & Hexact & _).
  apply Hexact. vm_compute. split; [discriminate|reflexivity].
Defined.

Lemma occurrences_replicate (n : nat) (m m' : CounterCall) :
  occurrences m (replicate n m') = if decide (m' = m) then n else 0%nat.
Proof.
  unfold occurrences. induction n as [|n IH]; [by case_decide|].
  change (replicate (S n) m') with (m' :: replicate n m').
  rewrite filter_cons. case_decide; [|exact IH].
  change (length (m' :: filter (λ x, x = m) (replicate n m')))
    with (S (length (filter (λ x, x = m) (replicate n m')))).
  by rewrite IH.
Qed.

Lemma net_replicate_Inc (n : nat) : net (replicate n CallInc) = Z.of_nat n.
Proof.
  unfold net. rewrite !occurrences_replicate.
  rewrite decide_True by reflexivity. rewrite decide_False by discriminate.
  change (Z.of_nat 0) with 0. apply Z.sub_0_r.
Qed.

(** C1, as the specification words it, fails twice. A [Dev] that no [Inc]
    preceded leaves the counter at -1, which is negative. And 2^31 calls of
    [Inc], with no [Dev], leave the counter at -2^31, which is not the
    number of [Inc] calls minus the number of [Dev] calls. *)
Lemma count_goes_negative_and_wraps :
  let built := Kind_Build examples.helloKind examples.theCluster in
  let many := replicate (Z.to_nat (2 ^ 31)) CallInc in
  (ActivatedKind_count (calls [CallDev] built) = -1
   ∧ ¬ (0 ≤ ActivatedKind_count (calls [CallDev] built)))
  ∧ (net many = 2 ^ 31
     ∧ ActivatedKind_count (calls many built) = - 2 ^ 31
     ∧ ActivatedKind_count (calls many built) ≠ net many).
Proof.
  intros built many.
  assert (Hnet : net many = 2 ^ 31).
  { subst many. rewrite net_replicate_Inc. apply Z2Nat.id. discriminate. }
  assert (Hcount : ActivatedKind_count (calls many built) = - 2 ^ 31).
  { subst built. rewrite count_calls, Hnet. reflexivity. }
  split; [split|split; [exact Hnet|split; [exact Hcount|]]].
  - reflexivity.
  - change (¬ (0 ≤ -1)). intros H. by apply H.
  - rewrite Hcount, Hnet. discriminate.
Qed.

End counter.

(** ** The activation middleware *)

Section middleware.
Import cluster.

Variable GetCluster : ActorSystem → Cluster.

Lemma record_trace call w : World_trace (record call w) = World_trace w ++ [call].
Proof. reflexivity. Qed.

Lemma recordingReceiver_trace c envelope w :
  World_trace (recordingReceiver c envelope w)
  = World_trace w ++ [CallNext (ReceiverContext_id c) envelope].
Proof. reflexivity. Qed.

Lemma recordingReceiver_identity c c' envelope w :
  GetClusterIdentity c (recordingReceiver c' envelope w) = GetClusterIdentity c w.
Proof. reflexivity. Qed.

(** The value-qualified removal takes out the entry of the stopping
    process and leaves the entry of any other process alone. *)
Lemma removeByValue_same identity kind pid cache :
  cache !! (identity, kind) = Some pid →
  removeByValue identity kind pid cache = delete (identity, kind) cache.
Proof.
  intros H. unfold removeByValue, PID_Equal. rewrite H.
  by rewrite bool_decide_true.
Qed.

Lemma removeByValue_other identity kind pid existing cache :
  cache !! (identity, kind) = Some existing → existing ≠ pid →
  removeByValue identity kind pid cache = cache.
Proof.
  intros H Hne. unfold removeByValue, PID_Equal. rewrite H.
  by rewrite bool_decide_false.
Qed.

Lemma removeByValue_absent identity kind pid cache :
  cache !! (identity, kind) = None →
  removeByValue identity kind pid cache = cache.
Proof. intros H. unfold removeByValue. by rewrite H. Qed.

(** The init hook of [WithClusterIdentity] attaches the identity. *)
Lemma WithClusterIdentity_binds props ci c w :
  GetClusterIdentity c (Props_runInit (WithClusterIdentity props ci) c w) = Some ci.
Proof.
  unfold Props_runInit, WithClusterIdentity, Props_Clone, WithOnInit. simpl.
  rewrite foldl_app. simpl. unfold GetClusterIdentity. simpl.
  apply lookup_insert_eq.
Qed.

(** C2. Start handling (the middleware on a start envelope) gives the
    start envelope to the wrapped pipeline, and what that returns is the
    world in which the ClusterInit message is built, from the identity
    attached to the context and the cluster of the hosting actor system,
    and given to the same pipeline on the same context. A grain that
    records what it receives has seen, after start handling, exactly two
    more envelopes: the start envelope and then the ClusterInit envelope,
    of which one carries a ClusterInit. *)
Theorem handleStarted_started_then_ClusterInit
    (c : ReceiverContext) (next : ReceiverFunc) (envelope : MessageEnvelope) (w : World) :
  MessageEnvelope_Message envelope = Started →
  let cl := GetCluster (ReceiverContext_ActorSystem c) in
  let init w' :=
    WrapEnvelope (MsgClusterInit {| ClusterInit_Identity := GetClusterIdentity c w';
                                    ClusterInit_Cluster := cl |}) in
  let started := next c envelope w in
  let delivered := [CallNext (ReceiverContext_id c) envelope;
                    CallNext (ReceiverContext_id c) (init w)] in
  clusterReceiveMiddleware GetCluster next c envelope w = handleStarted GetCluster c next envelope w
  ∧ handleStarted GetCluster c next envelope w = next c (init started) started
  ∧ World_trace (clusterReceiveMiddleware GetCluster recordingReceiver c envelope w)
    = World_trace w ++ delivered
  ∧ length (filter (λ call, deliversClusterInit call) delivered) = 1.
Proof.
  intros Hstart cl init started delivered.
  assert (Hmw : ∀ next', clusterReceiveMiddleware GetCluster next' c envelope w
                        = handleStarted GetCluster c next' envelope w).
  { intros next'. unfold clusterReceiveMiddleware. by rewrite Hstart. }
  split; [apply Hmw|]. split; [reflexivity|]. split.
  - rewrite Hmw. unfold handleStarted.
    rewrite !recordingReceiver_trace, recordingReceiver_identity.
    by rewrite <- app_assoc.
  - subst delivered. rewrite filter_cons. simpl. rewrite Hstart. simpl.
    reflexivity.
Qed.

(** C3. Stop handling on a context with an identity attached: the
    ActivationTerminating event with the process and the identity is
    published on the event stream of the cluster's actor system, while the
    pid cache is still as it was; then the entry for (identity, kind) is
    removed from the cluster's pid cache if it holds this process; the
    world after both is the one the wrapped pipeline receives the stop
    envelope in. The collaborators have received exactly these three calls,
    in this order. *)
Theorem handleStopped_publish_remove_forward
    (c : ReceiverContext) (next : ReceiverFunc) (envelope : MessageEnvelope) (w : World)
    (identity : ClusterIdentity) :
  GetClusterIdentity c w = Some identity →
  let cl := GetCluster (ReceiverContext_ActorSystem c) in
  let stream := ActorSystem_EventStream (Cluster_ActorSystem cl) in
  let cache := Cluster_PidCache cl in
  let self := ReceiverContext_Self c in
  let ev := EvActivationTerminating
              {| ActivationTerminating_Pid := self;
                 ActivationTerminating_ClusterIdentity := identity |} in
  let remove := CallRemoveByValue cache (ClusterIdentity_Identity identity)
                  (ClusterIdentity_Kind identity) self in
  let published := EventStream_Publish stream ev w in
  let removed := PidCache_RemoveByValue cache (ClusterIdentity_Identity identity)
                   (ClusterIdentity_Kind identity) self published in
  handleStopped GetCluster c next envelope w = next c envelope removed
  ∧ (World_trace published = World_trace w ++ [CallPublish stream ev]
     ∧ World_streams published !!! stream = World_streams w !!! stream ++ [ev]
     ∧ World_caches published = World_caches w)
  ∧ (World_trace removed = World_trace published ++ [remove]
     ∧ World_caches removed !!! cache
       = removeByValue (ClusterIdentity_Identity identity) (ClusterIdentity_Kind identity) self
           (World_caches w !!! cache)
     ∧ World_streams removed = World_streams published)
  ∧ World_trace (handleStopped GetCluster c recordingReceiver envelope w)
    = World_trace w ++ [CallPublish stream ev; remove;
                        CallNext (ReceiverContext_id c) envelope].
Proof.
  intros Hid cl stream cache self ev remove published removed.
  split; [unfold handleStopped; by rewrite Hid|].
  split; [split; [reflexivity|split; [apply lookup_total_insert_eq|reflexivity]]|].
  split; [split; [reflexivity|split; [apply lookup_total_insert_eq|reflexivity]]|].
  unfold handleStopped. rewrite Hid. rewrite recordingReceiver_trace.
  simpl. by rewrite <- !app_assoc.
Qed.

(** C5. Stop handling on a context with no identity attached gives the
    stop envelope to the wrapped pipeline in the world as it found it:
    nothing has been published and no cache has been touched. The one call
    the collaborators receive is the forwarded envelope. *)
Theorem handleStopped_without_identity
    (c : ReceiverContext) (next : ReceiverFunc) (envelope : MessageEnvelope) (w : World) :
  GetClusterIdentity c w = None →
  handleStopped GetCluster c next envelope w = next c envelope w
  ∧ World_trace (handleStopped GetCluster c recordingReceiver envelope w)
    = World_trace w ++ [CallNext (ReceiverContext_id c) envelope]
  ∧ World_streams (handleStopped GetCluster c recordingReceiver envelope w) = World_streams w
  ∧ World_caches (handleStopped GetCluster c recordingReceiver envelope w) = World_caches w.
Proof.
  intros Hid. unfold handleStopped. rewrite Hid. by repeat split.
Qed.

(** C6. The middleware hands a start envelope to [handleStarted] and a stop
    envelope to [handleStopped]; on every other message it is the next
    receiver, called on the same context with the same envelope in the same
    world. *)
Theorem clusterReceiveMiddleware_intercepts_start_and_stop
    (next : ReceiverFunc) (c : ReceiverContext) (envelope : MessageEnvelope) (w : World) :
  (MessageEnvelope_Message envelope = Started →
   clusterReceiveMiddleware GetCluster next c envelope w
   = handleStarted GetCluster c next envelope w)
  ∧ (MessageEnvelope_Message envelope = Stopped →
     clusterReceiveMiddleware GetCluster next c envelope w
     = handleStopped GetCluster c next envelope w)
  ∧ (MessageEnvelope_Message envelope ≠ Started →
     MessageEnvelope_Message envelope ≠ Stopped →
     clusterReceiveMiddleware GetCluster next c envelope w = next c envelope w).
Proof.
  unfold clusterReceiveMiddleware.
  destruct (MessageEnvelope_Message envelope); repeat split; try done; intros ? ?; done.
Qed.

(** C10. Start handling does not look at whether an identity is attached:
    when the context has none once the start envelope has been handled,
    the ClusterInit message is still built, with a nil identity, and given
    to the wrapped pipeline. A grain that records what it receives, on a
    context without identity, has seen the start envelope and then that
    ClusterInit envelope. *)
Theorem handleStarted_without_identity
    (c : ReceiverContext) (next : ReceiverFunc) (envelope : MessageEnvelope) (w : World) :
  let init :=
    WrapEnvelope
      (MsgClusterInit {| ClusterInit_Identity := None;
                         ClusterInit_Cluster := GetCluster (ReceiverContext_ActorSystem c) |}) in
  (GetClusterIdentity c (next c envelope w) = None →
   handleStarted GetCluster c next envelope w = next c init (next c envelope w))
  ∧ (GetClusterIdentity c w = None →
     World_trace (handleStarted GetCluster c recordingReceiver envelope w)
     = World_trace w ++ [CallNext (ReceiverContext_id c) envelope;
                         CallNext (ReceiverContext_id c) init]).
Proof.
  intros init. unfold handleStarted. split; intros Hid.
  - by rewrite Hid.
  - rewrite recordingReceiver_identity, Hid, !recordingReceiver_trace.
    by rewrite <- app_assoc.
Qed.

(** [NewKind] attaches the middleware behind those the props already had. *)
Lemma NewKind_attaches_middleware kind props :
  Kind_Kind (NewKind GetCluster kind props) = kind
  ∧ Props_receiverMiddleware (Kind_Props (NewKind GetCluster kind props))
    = Props_receiverMiddleware props ++ [clusterReceiveMiddleware GetCluster].
Proof. split; reflexivity. Qed.

End middleware.

Section middleware_examples.
Import cluster examples.

Lemma handleStarted_started_then_ClusterInit_witness :
  MessageEnvelope_Message (envelopeOf Started) = Started
  ∧ World_trace
      (clusterReceiveMiddleware GetCluster recordingReceiver ctx1 (envelopeOf Started)
         activatedWorld)
    = [CallNext 10%N (envelopeOf Started);
       CallNext 10%N
         (envelopeOf (MsgClusterInit {| ClusterInit_Identity := Some user1;
                                        ClusterInit_Cluster := theCluster |}))].
Proof.
  split; [reflexivity|].
  destruct (handleStarted_started_then_ClusterInit GetCluster ctx1 recordingReceiver
              (envelopeOf Started) activatedWorld eq_refl) as (_ & _ & Htrace & _).
  rewrite Htrace. reflexivity.
Defined.

Lemma handleStopped_publish_remove_forward_witness :
  GetClusterIdentity ctx1 activatedWorld = Some user1
  ∧ World_trace (handleStopped GetCluster ctx1 recordingReceiver (envelopeOf Stopped)
                   activatedWorld)
    = [CallPublish 1%N
         (EvActivationTerminating {| ActivationTerminating_Pid := pid1;
                                     ActivationTerminating_ClusterIdentity := user1 |});
       CallRemoveByValue 2%N "user-1" "Hello" pid1;
       CallNext 10%N (envelopeOf Stopped)].
Proof.
  split; [reflexivity|].
  destruct (handleStopped_publish_remove_forward GetCluster ctx1 recordingReceiver
              (envelopeOf Stopped) activatedWorld user1 eq_refl) as (_ & _ & _ & Htrace).
  rewrite Htrace. reflexivity.
Defined.

Lemma handleStopped_without_identity_witness :
  GetClusterIdentity ctx1 emptyWorld = None
  ∧ handleStopped GetCluster ctx1 recordingReceiver (envelopeOf Stopped) emptyWorld
    = recordingReceiver ctx1 (envelopeOf Stopped) emptyWorld.
Proof.
  split; [reflexivity|].
  exact (proj1 (handleStopped_without_identity GetCluster ctx1 recordingReceiver
                  (envelopeOf Stopped) emptyWorld eq_refl)).
Defined.

Lemma clusterReceiveMiddleware_intercepts_start_and_stop_witness :
  MessageEnvelope_Message (envelopeOf (MsgUser "DoWorkRequest" "job")) ≠ Started
  ∧ MessageEnvelope_Message (envelopeOf (MsgUser "DoWorkRequest" "job")) ≠ Stopped
  ∧ clusterReceiveMiddleware GetCluster recordingReceiver ctx1
      (envelopeOf (MsgUser "DoWorkRequest" "job")) activatedWorld
    = recordingReceiver ctx1 (envelopeOf (MsgUser "DoWorkRequest" "job")) activatedWorld.
Proof.
  assert (H1 : MessageEnvelope_Message (envelopeOf (MsgUser "DoWorkRequest" "job")) ≠ Started)
    by discriminate.
  assert (H2 : MessageEnvelope_Message (envelopeOf (MsgUser "DoWorkRequest" "job")) ≠ Stopped)
    by discriminate.
  split; [exact H1|]. split; [exact H2|].
  exact (proj2 (proj2 (clusterReceiveMiddleware_intercepts_start_and_stop GetCluster
                         recordingReceiver ctx1 _ activatedWorld)) H1 H2).
Defined.

Lemma handleStarted_without_identity_witness :
  GetClusterIdentity ctx1 (recordingReceiver ctx1 (envelopeOf Started) emptyWorld) = None
  ∧ World_trace (handleStarted GetCluster ctx1 recordingReceiver (envelopeOf Started) emptyWorld)
    = [CallNext 10%N (envelopeOf Started);
       CallNext 10%N
         (envelopeOf (MsgClusterInit {| ClusterInit_Identity := None;
                                        ClusterInit_Cluster := theCluster |}))].
Proof.
  split; [reflexivity|].
  rewrite (proj1 (handleStarted_without_identity GetCluster ctx1 recordingReceiver
                    (envelopeOf Started) emptyWorld) eq_refl).
  reflexivity.
Defined.

(** Stopping the cached activation empties its cache entry and publishes
    one event; stopping a superseded activation publishes the event as well
    but leaves the entry of the newer activation in the cache. *)
Lemma handleStopped_cache_examples :
  let stopped w := handleStopped GetCluster ctx1 recordingReceiver (envelopeOf Stopped) w in
  World_caches (stopped activatedWorld) !! 2%N = Some ∅
  ∧ World_caches (stopped supersededWorld) !! 2%N = Some {[ ("user-1", "Hello") := pid2 ]}
  ∧ World_streams (stopped activatedWorld) !! 1%N
    = Some [EvActivationTerminating {| ActivationTerminating_Pid := pid1;
                                       ActivationTerminating_ClusterIdentity := user1 |}]
  ∧ World_streams (stopped supersededWorld) = World_streams (stopped activatedWorld).
Proof. repeat split; vm_compute; reflexivity. Qed.

End middleware_examples.

(** ** Configuration and kind registration *)

Section configuration.
Import cluster.

Variable defaultActorRequestTimeout : time.Duration.
Variable defaultRequestsLogThrottlePeriod : time.Duration.
Variable defaultMaxNumberOfEvetsInRequestLogThrottledPeriod : Z.
Variable newDefaultMemberStrategy : Cluster → string → MemberStrategy.
Variable newDefaultClusterContext : Cluster → ClusterContext.

#[local] Abbreviation Configure :=
  (Configure defaultActorRequestTimeout defaultRequestsLogThrottlePeriod
     defaultMaxNumberOfEvetsInRequestLogThrottledPeriod
     newDefaultMemberStrategy newDefaultClusterContext).

Lemma Config_setKinds_twice kinds kinds' c :
  Config_setKinds kinds' (Config_setKinds kinds c) = Config_setKinds kinds' c.
Proof. reflexivity. Qed.

Lemma WithKinds_one kind c :
  WithKinds [kind] c = Config_setKinds (<[Kind_Kind kind := kind]> (Config_Kinds c)) c.
Proof. reflexivity. Qed.

Lemma WithKinds_app kinds kinds' c :
  WithKinds (kinds ++ kinds') c = WithKinds kinds' (WithKinds kinds c).
Proof. unfold WithKinds. apply foldl_app. Qed.

(** Registering [kind] after any other registration under its name leaves
    the configuration that registering [kind] alone gives. *)
Lemma WithKinds_overwrite kind' kind c :
  Kind_Kind kind' = Kind_Kind kind →
  WithKinds [kind] (WithKinds [kind'] c) = WithKinds [kind] c.
Proof.
  intros Hname. rewrite !WithKinds_one. simpl. rewrite Hname.
  by rewrite insert_insert_eq.
Qed.

(** C8. Two kinds under one name, registered by one option or by two: the
    configuration is the one that registering the second alone gives, the
    name looks up the second kind, and [Configure] returns that
    configuration (an option has no error to raise). Registering a kind a
    second time changes nothing. *)
Theorem WithKinds_last_registration_wins
    (clusterName : string) (clusterProvider : ClusterProvider)
    (identityLookup : IdentityLookup) (remoteConfig : RemoteConfig)
    (c : Config) (first second : Kind) :
  Kind_Kind first = Kind_Kind second →
  WithKinds [first; second] c = WithKinds [second] c
  ∧ WithKinds [second] (WithKinds [first] c) = WithKinds [second] c
  ∧ Config_Kinds (WithKinds [first; second] c) !! Kind_Kind first = Some second
  ∧ Configure clusterName clusterProvider identityLookup remoteConfig
      [WithKinds [first]; WithKinds [second]]
    = Configure clusterName clusterProvider identityLookup remoteConfig [WithKinds [second]]
  ∧ Config_Kinds (Configure clusterName clusterProvider identityLookup remoteConfig
                    [WithKinds [first]; WithKinds [second]])
    = {[ Kind_Kind second := second ]}
  ∧ WithKinds [second] (WithKinds [second] c) = WithKinds [second] c
  ∧ WithKinds [second; second] c = WithKinds [second] c.
Proof.
  intros Hname.
  assert (Htwo : ∀ c', WithKinds [first; second] c' = WithKinds [second] c').
  { intros c'. change [first; second] with ([first] ++ [second]).
    rewrite WithKinds_app. by apply WithKinds_overwrite. }
  split; [apply Htwo|].
  split; [by apply WithKinds_overwrite|].
  split; [rewrite Htwo, WithKinds_one, Hname; simpl; apply lookup_insert_eq|].
  split; [unfold cluster.Configure; simpl; by apply WithKinds_overwrite|].
  split; [unfold cluster.Configure; simpl; rewrite Hname; by rewrite insert_insert_eq|].
  split; [by apply WithKinds_overwrite|].
  change [second; second] with ([second] ++ [second]).
  rewrite WithKinds_app. by apply WithKinds_overwrite.
Qed.

(** C9. With no options, [Configure] returns the defaults: a timeout of 5
    seconds, a gossip interval of 300 milliseconds, a gossip request timeout
    of 500 milliseconds (durations in nanoseconds), a gossip fan-out of 3
    and a gossip max-send of 50. *)
Theorem Configure_defaults
    (clusterName : string) (clusterProvider : ClusterProvider)
    (identityLookup : IdentityLookup) (remoteConfig : RemoteConfig) :
  let config := Configure clusterName clusterProvider identityLookup remoteConfig [] in
  (Config_TimeoutTime config = 5 * time.Second
   ∧ Config_GossipInterval config = 300 * time.Millisecond
   ∧ Config_GossipRequestTimeout config = 500 * time.Millisecond
   ∧ Config_GossipFanOut config = 3
   ∧ Config_GossipMaxSend config = 50
   ∧ time.Second = 1000 * time.Millisecond
   ∧ time.Millisecond = 1000000 * time.Nanosecond
   ∧ Config_TimeoutTime config = 5000000000
   ∧ Config_GossipInterval config = 300000000
   ∧ Config_GossipRequestTimeout config = 500000000)%Z.
Proof. repeat split. Qed.

End configuration.

Section configuration_examples.
Import cluster examples.

Lemma WithKinds_last_registration_wins_witness :
  Kind_Kind helloKind = Kind_Kind helloKind'
  ∧ Config_Kinds
      (Configure 0%Z 0%Z 0%Z (λ _ _, 0%N) (λ _, 0%N) "cluster" 1%N 2%N 3%N
         [WithKinds [helloKind]; WithKinds [helloKind']])
    = {[ "Hello" := helloKind' ]}.
Proof.
  split; [reflexivity|].
  exact (proj1 (proj2 (proj2 (proj2 (proj2
           (WithKinds_last_registration_wins 0%Z 0%Z 0%Z (λ _ _, 0%N) (λ _, 0%N)
              "cluster" 1%N 2%N 3%N
              (Configure 0%Z 0%Z 0%Z (λ _ _, 0%N) (λ _, 0%N) "cluster" 1%N 2%N 3%N [])
              helloKind helloKind' eq_refl)))))).
Defined.

End configuration_examples.

(** ** The method descriptors of [generateService] *)

Section descriptors.
Import protoc_gen_go_grain.

Variable QualifiedGoIdent : GoIdent → string.

Lemma GetReenterable_annotation method :
  GetReenterable
    (MethodDescriptor_Options (Method_Desc method) ≫= descriptorpb_MethodOptions_method_options)
  = default false (reenterable_annotation method).
Proof.
  unfold reenterable_annotation.
  destruct (MethodDescriptor_Options (Method_Desc method)) as [options|]; [|done]. simpl.
  by destruct (descriptorpb_MethodOptions_method_options options).
Qed.

(** One step of the loop. *)
Lemma rangeMethods_cons i method methods sd :
  rangeMethods QualifiedGoIdent i (method :: methods) sd
  = rangeMethods QualifiedGoIdent (S i) methods
      (if streaming method then sd
       else {| serviceDesc_Name := serviceDesc_Name sd;
               serviceDesc_Methods :=
                 serviceDesc_Methods sd ++ [descriptorAt QualifiedGoIdent i method] |}).
Proof.
  simpl. unfold streaming.
  destruct (IsStreamingClient (Method_Desc method) || IsStreamingServer (Method_Desc method));
    [done|].
  simpl. unfold descriptorAt. by rewrite GetReenterable_annotation.
Qed.

(** The descriptors after the loop: those it started with, and one for
    every non-streaming method, at the method's position. *)
Lemma rangeMethods_elem_of md methods i sd :
  md ∈ serviceDesc_Methods (rangeMethods QualifiedGoIdent i methods sd)
  ↔ md ∈ serviceDesc_Methods sd
    ∨ ∃ j method, methods !! j = Some method ∧ streaming method = false
                  ∧ md = descriptorAt QualifiedGoIdent (i + j) method.
Proof.
  revert i sd. induction methods as [|method methods IH]; intros i sd.
  - simpl. split; [by left|]. intros [H|(j & method & H & _)]; [done|]. by destruct j.
  - rewrite rangeMethods_cons, IH. split.
    + intros [H|(j & method' & Hj & Hns & ->)].
      * destruct (streaming method) eqn:Hs; [by left|]. simpl in H.
        apply elem_of_app in H as [H|H]; [by left|].
        apply list_elem_of_singleton in H as ->.
        right. exists 0, method. by rewrite Nat.add_0_r.
      * right. exists (S j), method'. by rewrite Nat.add_succ_r.
    + intros [H|(j & method' & Hj & Hns & ->)].
      * left. destruct (streaming method); [done|]. simpl. apply elem_of_app. by left.
      * destruct j as [|j]; simpl in Hj.
        -- injection Hj as ->. left. rewrite Hns. simpl.
           apply elem_of_app. right. rewrite Nat.add_0_r. by apply list_elem_of_singleton.
        -- right. exists j, method'. by rewrite Nat.add_succ_r.
Qed.

(** The positions of the descriptors increase strictly, so no two
    descriptors share a position. *)
Lemma rangeMethods_Index_sorted methods i sd :
  StronglySorted lt (methodDesc_Index <$> serviceDesc_Methods sd) →
  Forall (λ md, methodDesc_Index md < i) (serviceDesc_Methods sd) →
  StronglySorted lt
    (methodDesc_Index <$> serviceDesc_Methods (rangeMethods QualifiedGoIdent i methods sd)).
Proof.
  revert i sd. induction methods as [|method methods IH]; intros i sd Hsorted Hbelow; [done|].
  rewrite rangeMethods_cons. destruct (streaming method).
  - apply IH; [done|]. eapply Forall_impl; [exact Hbelow|]. simpl. lia.
  - apply IH; simpl.
    + rewrite fmap_app. apply StronglySorted_app_2; [|done|repeat constructor].
      intros x y Hx Hy. simpl in Hy. apply list_elem_of_singleton in Hy as ->.
      apply list_elem_of_fmap in Hx as (md & -> & Hmd).
      by apply (proj1 (Forall_forall _ _) Hbelow).
    + apply Forall_app. split.
      * eapply Forall_impl; [exact Hbelow|]. simpl. lia.
      * repeat constructor.
Qed.

Lemma StronglySorted_lt_NoDup (l : list nat) : StronglySorted lt l → NoDup l.
Proof.
  induction 1 as [|x l _ IH Hx]; constructor; [|done].
  intros Hin. apply (proj1 (Forall_forall _ _) Hx) in Hin. lia.
Qed.

Lemma describeService_elem_of md service :
  md ∈ serviceDesc_Methods (describeService QualifiedGoIdent service)
  ↔ ∃ i method, Service_Methods service !! i = Some method ∧ streaming method = false
                ∧ md = descriptorAt QualifiedGoIdent i method.
Proof.
  unfold describeService. rewrite rangeMethods_elem_of. simpl. split.
  - intros [H|H]; [by apply elem_of_nil in H|done].
  - intros H. by right.
Qed.

(** C7. The descriptors that [generateService] hands to the template: a
    method of the service has a descriptor with its position as index
    exactly when it is non-streaming; every descriptor is the one of a
    non-streaming method at the position its index names, with that method's
    name and with the method's reenterable annotation as flag, [false] when
    the method has none; the indices increase strictly, so each method has at
    most one descriptor. *)
Theorem describeService_one_descriptor_per_unary_method (service : Service) :
  let mds := serviceDesc_Methods (describeService QualifiedGoIdent service) in
  (∀ i method, Service_Methods service !! i = Some method →
     ((∃ md, md ∈ mds ∧ methodDesc_Index md = i) ↔ streaming method = false))
  ∧ (∀ md, md ∈ mds →
       ∃ method, Service_Methods service !! methodDesc_Index md = Some method
                 ∧ streaming method = false
                 ∧ methodDesc_Name md = Method_GoName method
                 ∧ methodDesc_Reenterable md = default false (reenterable_annotation method))
  ∧ StronglySorted lt (methodDesc_Index <$> mds)
  ∧ NoDup (methodDesc_Index <$> mds).
Proof.
  intros mds. subst mds.
  assert (Hsorted : StronglySorted lt
            (methodDesc_Index <$> serviceDesc_Methods (describeService QualifiedGoIdent service))).
  { unfold describeService. apply rangeMethods_Index_sorted; simpl; constructor. }
  split; [|split; [|split; [done|by apply StronglySorted_lt_NoDup]]].
  - intros i method Hi. split.
    + intros (md & Hmd & Hidx).
      apply describeService_elem_of in Hmd as (j & method' & Hj & Hns & ->).
      simpl in Hidx. subst j. congruence.
    + intros Hns. exists (descriptorAt QualifiedGoIdent i method). split; [|done].
      apply describeService_elem_of. by exists i, method.
  - intros md Hmd.
    apply describeService_elem_of in Hmd as (j & method & Hj & Hns & ->).
    by exists method.
Qed.

(** What [generateService] prints: the deprecation comment of a deprecated
    service, then the template on the descriptors when there are any. *)
Lemma generateService_prints (execute : serviceDesc → string) service g :
  generateService QualifiedGoIdent execute service g
  = (if ServiceOptions_GetDeprecated (Service_Options service)
     then g ++ ["//"; deprecationComment] else g)
    ++ match serviceDesc_Methods (describeService QualifiedGoIdent service) with
       | [] => []
       | _ :: _ => [execute (describeService QualifiedGoIdent service)]
       end.
Proof.
  unfold generateService, P.
  destruct (serviceDesc_Methods (describeService QualifiedGoIdent service)); simpl.
  - rewrite app_nil_r. destruct (ServiceOptions_GetDeprecated _); [|done].
    by rewrite <- app_assoc.
  - destruct (ServiceOptions_GetDeprecated _); [|done]. by rewrite <- !app_assoc.
Qed.

End descriptors.

Section descriptors_examples.
Import protoc_gen_go_grain.

(** The service of the reentrancy example: [InvokeService] is dispatched as
    reenterable, [DoWork], declared without options, as blocking. *)
Lemma describeService_Hello :
  describeService GoIdent_GoName Hello
  = {| serviceDesc_Name := "Hello";
       serviceDesc_Methods :=
         [ {| methodDesc_Name := "InvokeService";
              methodDesc_Input := "InvokeServiceRequest";
              methodDesc_Output := "InvokeServiceResponse";
              methodDesc_Index := 0;
              methodDesc_Reenterable := true |};
           {| methodDesc_Name := "DoWork";
              methodDesc_Input := "DoWorkRequest";
              methodDesc_Output := "DoWorkResponse";
              methodDesc_Index := 1;
              methodDesc_Reenterable := false |} ] |}.
Proof. reflexivity. Qed.

(** A client-streaming method in second position gets no descriptor, and the
    method after it keeps its declared position 2. *)
Lemma describeService_skips_streaming :
  let upload :=
    {| Method_Desc := {| IsStreamingClient := true;
                         IsStreamingServer := false;
                         MethodDescriptor_Options := None |};
       Method_GoName := "Upload";
       Method_Input := {| GoIdent_GoName := "Chunk"; GoIdent_GoImportPath := reentrancy_main |};
       Method_Output := {| GoIdent_GoName := "Done";
                           GoIdent_GoImportPath := reentrancy_main |} |} in
  let service :=
    {| Service_Options := None;
       Service_GoName := "Hello";
       Service_Methods :=
         match Service_Methods Hello with
         | invoke :: rest => invoke :: upload :: rest
         | [] => []
         end |} in
  (methodDesc_Name <$> serviceDesc_Methods (describeService GoIdent_GoName service))
  = ["InvokeService"; "DoWork"]
  ∧ (methodDesc_Index <$> serviceDesc_Methods (describeService GoIdent_GoName service))
    = [0; 2].
Proof. split; reflexivity. Qed.

Lemma describeService_one_descriptor_per_unary_method_witness :
  ∃ method,
    Service_Methods Hello !! 1 = Some method
    ∧ streaming method = false
    ∧ ∃ md, md ∈ serviceDesc_Methods (describeService GoIdent_GoName Hello)
            ∧ methodDesc_Index md = 1.
Proof.
  eexists. split; [reflexivity|]. split; [reflexivity|].
  exact (proj2 (proj1 (describeService_one_descriptor_per_unary_method GoIdent_GoName Hello)
                  1 _ eq_refl) eq_refl).
Defined.

End descriptors_examples.

(** ** More on configuration: what a list of options amounts to *)

Section configuration_options.
Import cluster.

Variable defaultActorRequestTimeout : time.Duration.
Variable defaultRequestsLogThrottlePeriod : time.Duration.
Variable defaultMaxNumberOfEvetsInRequestLogThrottledPeriod : Z.
Variable newDefaultMemberStrategy : Cluster → string → MemberStrategy.
Variable newDefaultClusterContext : Cluster → ClusterContext.

#[local] Abbreviation Configure :=
  (Configure defaultActorRequestTimeout defaultRequestsLogThrottlePeriod
     defaultMaxNumberOfEvetsInRequestLogThrottledPeriod
     newDefaultMemberStrategy newDefaultClusterContext).

Lemma Configure_snoc name provider lookup remote options option :
  Configure name provider lookup remote (options ++ [option])
  = option (Configure name provider lookup remote options).
Proof. unfold cluster.Configure. by rewrite foldl_app. Qed.

Lemma WithKinds_snoc kinds kind c :
  WithKinds (kinds ++ [kind]) c
  = Config_setKinds (<[Kind_Kind kind := kind]> (Config_Kinds (WithKinds kinds c)))
      (WithKinds kinds c).
Proof. unfold WithKinds. by rewrite foldl_app. Qed.

(** [WithKinds] writes the [Kinds] field and nothing else. *)
Lemma WithKinds_only_Kinds kinds c :
  WithKinds kinds c = Config_setKinds (Config_Kinds (WithKinds kinds c)) c.
Proof.
  induction kinds as [|kind kinds IH] using rev_ind.
  - by destruct c.
  - rewrite WithKinds_snoc. rewrite IH at 2. reflexivity.
Qed.

Lemma WithKinds_lookup kinds c name :
  Config_Kinds (WithKinds kinds c) !! name
  = match last (filter (λ kind, Kind_Kind kind = name) kinds) with
    | Some kind => Some kind
    | None => Config_Kinds c !! name
    end.
Proof.
  induction kinds as [|kind kinds IH] using rev_ind; [done|].
  rewrite WithKinds_snoc, filter_app. simpl.
  rewrite filter_cons, filter_nil. destruct (decide (Kind_Kind kind = name)) as [<-|Hne].
  - by rewrite last_snoc, lookup_insert_eq.
  - by rewrite app_nil_r, lookup_insert_ne.
Qed.

Lemma WithKinds_Kinds kinds c :
  Config_Kinds (WithKinds kinds c)
  = foldl (λ m kind, <[Kind_Kind kind := kind]> m) (Config_Kinds c) kinds.
Proof.
  induction kinds as [|kind kinds IH] using rev_ind; [done|].
  by rewrite WithKinds_snoc, foldl_app, <- IH.
Qed.

(** The kinds of a configuration depend on the calls of [WithKinds] only. *)
Lemma Configure_Kinds name provider lookup remote calls :
  Config_Kinds (Configure name provider lookup remote (option_of <$> calls))
  = Config_Kinds (WithKinds (registeredKinds calls) (Configure name provider lookup remote [])).
Proof.
  rewrite WithKinds_Kinds.
  induction calls as [|call calls IH] using rev_ind; [done|].
  rewrite fmap_app. simpl. rewrite Configure_snoc.
  unfold registeredKinds in *. rewrite omap_app. simpl.
  destruct call; simpl; rewrite ?app_nil_r; try exact IH.
  rewrite join_app. simpl. rewrite app_nil_r.
  by rewrite WithKinds_Kinds, IH, foldl_app.
Qed.

Lemma Configure_snoc_call name provider lookup remote calls call :
  Configure name provider lookup remote (option_of <$> calls ++ [call])
  = option_of call (Configure name provider lookup remote (option_of <$> calls)).
Proof. rewrite fmap_app. apply Configure_snoc. Qed.

(** No option of this file writes the fields that [Configure] takes from its
    arguments or sets to the timeout and gossip defaults. *)
Lemma option_of_frame call c :
  Config_Name (option_of call c) = Config_Name c
  ∧ Config_Address (option_of call c) = Config_Address c
  ∧ Config_ClusterProvider (option_of call c) = Config_ClusterProvider c
  ∧ Config_IdentityLookup (option_of call c) = Config_IdentityLookup c
  ∧ Config_RemoteConfig (option_of call c) = Config_RemoteConfig c
  ∧ Config_MemberStrategyBuilder (option_of call c) = Config_MemberStrategyBuilder c
  ∧ Config_TimeoutTime (option_of call c) = Config_TimeoutTime c
  ∧ Config_GossipInterval (option_of call c) = Config_GossipInterval c
  ∧ Config_GossipRequestTimeout (option_of call c) = Config_GossipRequestTimeout c
  ∧ Config_GossipFanOut (option_of call c) = Config_GossipFanOut c
  ∧ Config_GossipMaxSend (option_of call c) = Config_GossipMaxSend c.
Proof.
  destruct call; simpl; try by repeat split.
  rewrite WithKinds_only_Kinds. by repeat split.
Qed.

(** X1. Whatever options of this file are given, in whatever number and
    order, [Configure] returns the name, provider, identity lookup and remote
    configuration it was called with, an empty address, the default member
    strategy builder, and the five timeout and gossip defaults: no option
    reaches these fields. *)
Theorem Configure_fields_no_option_sets
    (clusterName : string) (clusterProvider : ClusterProvider)
    (identityLookup : IdentityLookup) (remoteConfig : RemoteConfig)
    (calls : list OptionCall) :
  let config :=
    Configure clusterName clusterProvider identityLookup remoteConfig (option_of <$> calls) in
  Config_Name config = clusterName
  ∧ Config_Address config = ""
  ∧ Config_ClusterProvider config = clusterProvider
  ∧ Config_IdentityLookup config = identityLookup
  ∧ Config_RemoteConfig config = remoteConfig
  ∧ Config_MemberStrategyBuilder config = newDefaultMemberStrategy
  ∧ (Config_TimeoutTime config = 5000000000
     ∧ Config_GossipInterval config = 300000000
     ∧ Config_GossipRequestTimeout config = 500000000
     ∧ Config_GossipFanOut config = 3
     ∧ Config_GossipMaxSend config = 50)%Z.
Proof.
  induction calls as [|call calls IH] using rev_ind; [repeat split|].
  cbv zeta in *. rewrite Configure_snoc_call.
  destruct (option_of_frame call
              (Configure clusterName clusterProvider identityLookup remoteConfig
                 (option_of <$> calls)))
    as (-> & -> & -> & -> & -> & -> & -> & -> & -> & -> & ->).
  exact IH.
Qed.

(** X2. The request timeout, the log throttle period, the maximum number of
    events and the cluster context producer of the configuration are the
    argument of the last call of their option, or the package default when
    the option was never given; calls of other options, before or after, do
    not matter. [ToClusterContextConfig] copies the first three. *)
Theorem Configure_last_option_wins
    (clusterName : string) (clusterProvider : ClusterProvider)
    (identityLookup : IdentityLookup) (remoteConfig : RemoteConfig)
    (calls : list OptionCall) :
  let config :=
    Configure clusterName clusterProvider identityLookup remoteConfig (option_of <$> calls) in
  Config_RequestTimeoutTime config
  = default defaultActorRequestTimeout (last (requestTimeouts calls))
  ∧ Config_RequestsLogThrottlePeriod config
    = default defaultRequestsLogThrottlePeriod (last (throttlePeriods calls))
  ∧ Config_MaxNumberOfEventsInRequestLogThrottledPeriod config
    = default defaultMaxNumberOfEvetsInRequestLogThrottledPeriod (last (maxNumbers calls))
  ∧ Config_ClusterContextProducer config
    = default newDefaultClusterContext (last (contextProducers calls))
  ∧ ToClusterContextConfig config
    = {| ClusterContextConfig_ActorRequestTimeout :=
           default defaultActorRequestTimeout (last (requestTimeouts calls));
         ClusterContextConfig_RequestsLogThrottlePeriod :=
           default defaultRequestsLogThrottlePeriod (last (throttlePeriods calls));
         ClusterContextConfig_MaxNumberOfEventsInRequestLogThrottledPeriod :=
           default defaultMaxNumberOfEvetsInRequestLogThrottledPeriod
             (last (maxNumbers calls)) |}.
Proof.
  cbv zeta.
  assert (H : ∀ c,
            c = Configure clusterName clusterProvider identityLookup remoteConfig
                  (option_of <$> calls) →
            Config_RequestTimeoutTime c
            = default defaultActorRequestTimeout (last (requestTimeouts calls))
            ∧ Config_RequestsLogThrottlePeriod c
              = default defaultRequestsLogThrottlePeriod (last (throttlePeriods calls))
            ∧ Config_MaxNumberOfEventsInRequestLogThrottledPeriod c
              = default defaultMaxNumberOfEvetsInRequestLogThrottledPeriod
                  (last (maxNumbers calls))
            ∧ Config_ClusterContextProducer c
              = default newDefaultClusterContext (last (contextProducers calls))).
  { induction calls as [|call calls IH] using rev_ind; intros c ->; [repeat split|].
    rewrite Configure_snoc_call.
    destruct (IH _ eq_refl) as (IH1 & IH2 & IH3 & IH4). clear IH.
    revert IH1 IH2 IH3 IH4.
    generalize (Configure clusterName clusterProvider identityLookup remoteConfig
                  (option_of <$> calls)).
    intros c IH1 IH2 IH3 IH4.
    unfold requestTimeouts, throttlePeriods, maxNumbers, contextProducers in *.
    rewrite !omap_app.
    destruct call; simpl; rewrite ?app_nil_r, ?last_snoc; simpl;
      try rewrite (WithKinds_only_Kinds kinds); simpl;
      (split; [|split; [|split]]); assumption || reflexivity. }
  destruct (H _ eq_refl) as (H1 & H2 & H3 & H4).
  split; [exact H1|]. split; [exact H2|]. split; [exact H3|]. split; [exact H4|].
  unfold ToClusterContextConfig. rewrite H1, H2, H3. reflexivity.
Qed.

(** X3. A name looks up, in the configuration that [Configure] returns, the
    kind of that name that was registered last, over all [WithKinds] options
    and in the order of the options and of their arguments; a name that no
    registered kind has looks up nothing. *)
Theorem Configure_Kinds_lookup
    (clusterName : string) (clusterProvider : ClusterProvider)
    (identityLookup : IdentityLookup) (remoteConfig : RemoteConfig)
    (calls : list OptionCall) (name : string) :
  Config_Kinds
    (Configure clusterName clusterProvider identityLookup remoteConfig (option_of <$> calls))
  !! name
  = last (filter (λ kind, Kind_Kind kind = name) (registeredKinds calls)).
Proof.
  rewrite Configure_Kinds, WithKinds_lookup.
  destruct (last _); [done|]. apply lookup_empty.
Qed.

Lemma Configure_nil_Kinds name provider lookup remote :
  Config_Kinds (Configure name provider lookup remote []) = ∅.
Proof. reflexivity. Qed.

(** The entries of the configured kinds were registered, under their own
    name. *)
Lemma Configure_Kinds_entry name provider lookup remote calls key kind :
  Config_Kinds (Configure name provider lookup remote (option_of <$> calls)) !! key = Some kind →
  Kind_Kind kind = key ∧ kind ∈ registeredKinds calls.
Proof.
  rewrite Configure_Kinds, WithKinds_lookup.
  destruct (last _) as [kind'|] eqn:Hlast.
  - intros [= ->]. apply last_Some_elem_of, list_elem_of_filter in Hlast. by destruct Hlast.
  - rewrite Configure_nil_Kinds, lookup_empty. discriminate.
Qed.

(** X4. Every entry of the configured kinds is stored under the name of its
    own kind and is one of the kinds that were registered; and every name of
    a registered kind has an entry. *)
Theorem Configure_Kinds_keyed_by_name
    (clusterName : string) (clusterProvider : ClusterProvider)
    (identityLookup : IdentityLookup) (remoteConfig : RemoteConfig)
    (calls : list OptionCall) :
  let kinds :=
    Config_Kinds
      (Configure clusterName clusterProvider identityLookup remoteConfig (option_of <$> calls)) in
  map_Forall (λ name kind, Kind_Kind kind = name ∧ kind ∈ registeredKinds calls) kinds
  ∧ dom kinds = list_to_set (Kind_Kind <$> registeredKinds calls).
Proof.
  cbv zeta. split.
  - intros name kind. apply Configure_Kinds_entry.
  - apply set_eq. intros name. rewrite elem_of_dom, elem_of_list_to_set, list_elem_of_fmap.
    rewrite Configure_Kinds, WithKinds_lookup. split.
    + intros [kind Hkind]. destruct (last _) as [kind'|] eqn:Hlast.
      * apply last_Some_elem_of, list_elem_of_filter in Hlast as [? ?]. by exists kind'.
      * by rewrite Configure_nil_Kinds, lookup_empty in Hkind.
    + intros (kind & -> & Hin).
      destruct (last (filter _ _)) as [kind'|] eqn:Hlast; [by eexists|].
      apply last_None in Hlast.
      assert (Hin' : kind ∈ filter (λ kind0, Kind_Kind kind0 = Kind_Kind kind)
                              (registeredKinds calls))
        by (by apply list_elem_of_filter).
      rewrite Hlast in Hin'. by apply elem_of_nil in Hin'.
Qed.

(** X5. An option that sets a scalar field and a registration of kinds can
    be given in either order: the configuration is the same. *)
Theorem WithKinds_commutes_with_scalar_options
    (kinds : list Kind) (c : Config) (t period : time.Duration) (maxNumber : Z)
    (producer : Cluster → ClusterContext) :
  WithRequestTimeout t (WithKinds kinds c) = WithKinds kinds (WithRequestTimeout t c)
  ∧ WithRequestsLogThrottlePeriod period (WithKinds kinds c)
    = WithKinds kinds (WithRequestsLogThrottlePeriod period c)
  ∧ WithMaxNumberOfEventsInRequestLogThrottlePeriod maxNumber (WithKinds kinds c)
    = WithKinds kinds (WithMaxNumberOfEventsInRequestLogThrottlePeriod maxNumber c)
  ∧ WithClusterContextProducer producer (WithKinds kinds c)
    = WithKinds kinds (WithClusterContextProducer producer c).
Proof.
  assert (H : ∀ option : ConfigOption,
            (∀ kinds' c', option (Config_setKinds kinds' c')
                          = Config_setKinds kinds' (option c')) →
            (∀ c', Config_Kinds (option c') = Config_Kinds c') →
            option (WithKinds kinds c) = WithKinds kinds (option c)).
  { intros option Hset Hkinds.
    rewrite (WithKinds_only_Kinds kinds c), (WithKinds_only_Kinds kinds (option c)).
    by rewrite Hset, !WithKinds_Kinds, Hkinds. }
  split; [by apply H|]. split; [by apply H|]. split; by apply H.
Qed.

(** X6. Registering kinds of pairwise different names, in one option on a
    fresh configuration, gives as many entries as kinds. *)
Theorem Configure_Kinds_size
    (clusterName : string) (clusterProvider : ClusterProvider)
    (identityLookup : IdentityLookup) (remoteConfig : RemoteConfig)
    (kinds : list Kind) :
  NoDup (Kind_Kind <$> kinds) →
  size (Config_Kinds
          (Configure clusterName clusterProvider identityLookup remoteConfig [WithKinds kinds]))
  = length kinds.
Proof.
  intros Hnames.
  change [WithKinds kinds] with (option_of <$> [CallWithKinds kinds]).
  rewrite Configure_Kinds. unfold registeredKinds. simpl. rewrite app_nil_r.
  pose proof (Configure_nil_Kinds clusterName clusterProvider identityLookup remoteConfig)
    as Hempty.
  revert Hempty.
  generalize (Configure clusterName clusterProvider identityLookup remoteConfig []).
  intros c Hempty.
  induction kinds as [|kind kinds IH] using rev_ind.
  { change (size (Config_Kinds c) = 0). rewrite Hempty. apply map_size_empty. }
  rewrite fmap_app in Hnames. apply NoDup_app in Hnames as (Hnames & Hfresh & _).
  rewrite WithKinds_snoc. simpl. rewrite map_size_insert_None.
  - rewrite IH by done. rewrite length_app. simpl. lia.
  - rewrite WithKinds_lookup.
    destruct (last _) as [kind'|] eqn:Hlast.
    + apply last_Some_elem_of, list_elem_of_filter in Hlast as [Hname Hin].
      exfalso. apply (Hfresh (Kind_Kind kind)).
      * apply list_elem_of_fmap. by exists kind'.
      * simpl. left.
    + by rewrite Hempty.
Qed.

End configuration_options.

Section configuration_options_examples.
Import cluster examples.

Lemma Configure_Kinds_size_witness :
  NoDup (Kind_Kind <$> [helloKind; worldKind])
  ∧ size (Config_Kinds
            (Configure 0%Z 0%Z 0%Z (λ _ _, 0%N) (λ _, 0%N) "cluster" 1%N 2%N 3%N
               [WithKinds [helloKind; worldKind]])) = 2.
Proof.
  assert (H : NoDup (Kind_Kind <$> [helloKind; worldKind])).
  { apply NoDup_cons. split; [|apply NoDup_singleton].
    intros Hin. apply list_elem_of_singleton in Hin. discriminate. }
  split; [exact H|].
  exact (Configure_Kinds_size 0%Z 0%Z 0%Z (λ _ _, 0%N) (λ _, 0%N) "cluster" 1%N 2%N 3%N
           [helloKind; worldKind] H).
Defined.

End configuration_options_examples.

(** ** More on the live counter *)

Section counter_calls.
Import cluster.
Local Open Scope Z_scope.

Lemma wrapInt32_isInt32 z : isInt32 (atomic.wrapInt32 z).
Proof.
  unfold isInt32, atomic.wrapInt32.
  pose proof (Z.mod_pos_bound (z + 2 ^ 31) (2 ^ 32)). lia.
Qed.

Lemma ActivatedKind_eta ak :
  ak = ActivatedKind_setCount (ActivatedKind_count ak) ak.
Proof. by destruct ak. Qed.

(** The calls write the counter and nothing else. *)
Lemma calls_only_count ms ak :
  calls ms ak = ActivatedKind_setCount (ActivatedKind_count (calls ms ak)) ak.
Proof.
  induction ms as [|m ms IH] using rev_ind; [apply ActivatedKind_eta|].
  rewrite calls_snoc. rewrite IH.
  generalize (ActivatedKind_count (calls ms ak)). intros n. by destruct m.
Qed.

(** From any counter value, a non-empty sequence of calls leaves the wrapped
    sum of the value and the net number of calls. *)
Lemma count_calls_from ms ak :
  ms ≠ [] ∨ isInt32 (ActivatedKind_count ak) →
  ActivatedKind_count (calls ms ak) = atomic.wrapInt32 (ActivatedKind_count ak + net ms).
Proof.
  induction ms as [|m ms IH] using rev_ind.
  - intros [?|Hfit]; [done|]. unfold net. simpl. rewrite Z.add_0_r.
    symmetry. by apply wrapInt32_small.
  - intros _. rewrite calls_snoc, net_snoc.
    destruct (decide (ms = [])) as [->|Hne].
    + unfold net. simpl. destruct m; simpl; unfold atomic.AddInt32; f_equal; lia.
    + specialize (IH (or_introl Hne)).
      destruct m; simpl; unfold atomic.AddInt32; rewrite IH, wrapInt32_absorb; f_equal; lia.
Qed.

(** X7. [Inc] and [Dev] undo each other on every [ActivatedKind] whose
    counter holds an [int32] value, also at the two ends of the range, and
    they commute. *)
Theorem Inc_Dev_cancel (ak : ActivatedKind) :
  isInt32 (ActivatedKind_count ak) →
  Dev (Inc ak) = ak ∧ Inc (Dev ak) = ak ∧ Inc (Dev ak) = Dev (Inc ak).
Proof.
  intros Hfit.
  assert (H1 : Dev (Inc ak) = ak).
  { unfold Dev, Inc, atomic.AddInt32. destruct ak as [k p s n]. simpl in *.
    unfold ActivatedKind_setCount. simpl. f_equal.
    rewrite wrapInt32_absorb. replace (n + 1 + -1) with n by lia. by apply wrapInt32_small. }
  assert (H2 : Inc (Dev ak) = ak).
  { unfold Dev, Inc, atomic.AddInt32. destruct ak as [k p s n]. simpl in *.
    unfold ActivatedKind_setCount. simpl. f_equal.
    rewrite wrapInt32_absorb. replace (n + -1 + 1) with n by lia. by apply wrapInt32_small. }
  split; [exact H1|]. split; [exact H2|]. by rewrite H1, H2.
Qed.

(** X8. At the ends of [int32] the counter wraps: [Inc] adds one except at
    2^31 - 1, where it gives -2^31, and [Dev] subtracts one except at -2^31,
    where it gives 2^31 - 1. *)
Theorem Inc_Dev_at_the_bounds (ak : ActivatedKind) :
  isInt32 (ActivatedKind_count ak) →
  ActivatedKind_count (Inc ak)
  = (if decide (ActivatedKind_count ak = 2 ^ 31 - 1) then - 2 ^ 31
     else ActivatedKind_count ak + 1)
  ∧ ActivatedKind_count (Dev ak)
    = (if decide (ActivatedKind_count ak = - 2 ^ 31) then 2 ^ 31 - 1
       else ActivatedKind_count ak - 1).
Proof.
  intros Hfit. unfold isInt32 in Hfit. simpl. unfold atomic.AddInt32. split.
  - case_decide as Hmax.
    + rewrite Hmax. reflexivity.
    + apply wrapInt32_small. lia.
  - case_decide as Hmin.
    + rewrite Hmin. reflexivity.
    + replace (ActivatedKind_count ak + -1) with (ActivatedKind_count ak - 1) by lia.
      apply wrapInt32_small. lia.
Qed.

(** X9. No sequence of calls changes the kind name, the props or the
    strategy of an [ActivatedKind], and a counter that holds an [int32]
    value holds one after the calls. *)
Theorem calls_frame (ms : list CounterCall) (ak : ActivatedKind) :
  isInt32 (ActivatedKind_count ak) →
  ActivatedKind_Kind (calls ms ak) = ActivatedKind_Kind ak
  ∧ ActivatedKind_Props (calls ms ak) = ActivatedKind_Props ak
  ∧ ActivatedKind_Strategy (calls ms ak) = ActivatedKind_Strategy ak
  ∧ isInt32 (ActivatedKind_count (calls ms ak)).
Proof.
  intros Hfit. rewrite (calls_only_count ms ak). simpl.
  repeat split; try reflexivity;
    rewrite count_calls_from by (by right); apply wrapInt32_isInt32.
Qed.

(** X10. The schedule does not matter for the outcome: two interleavings of
    the calls of the same goroutines leave the same [ActivatedKind]. *)
Theorem calls_schedule_independent
    (goroutines : list (list CounterCall)) (ms ms' : list CounterCall) (ak : ActivatedKind) :
  interleaving goroutines ms →
  interleaving goroutines ms' →
  calls ms ak = calls ms' ak.
Proof.
  intros Hms Hms'.
  assert (Hperm : ms ≡ₚ ms').
  { rewrite (interleaving_Permutation _ _ Hms). symmetry.
    by apply interleaving_Permutation. }
  rewrite (calls_only_count ms ak), (calls_only_count ms' ak). f_equal.
  destruct (decide (ms = [])) as [->|Hne].
  - apply Permutation_nil_l in Hperm. by subst ms'.
  - assert (Hne' : ms' ≠ []).
    { intros ->. apply Permutation_nil_r in Hperm. done. }
    rewrite !count_calls_from by (by left). by rewrite (net_Permutation _ _ Hperm).
Qed.

End counter_calls.

Section counter_calls_examples.
Import cluster examples.
Local Open Scope Z_scope.

Lemma isInt32_0 : isInt32 0.
Proof. split; [discriminate|reflexivity]. Defined.

Lemma Inc_Dev_cancel_witness :
  isInt32 (ActivatedKind_count (Kind_Build helloKind theCluster))
  ∧ Dev (Inc (Kind_Build helloKind theCluster)) = Kind_Build helloKind theCluster.
Proof.
  split; [exact isInt32_0|].
  exact (proj1 (Inc_Dev_cancel (Kind_Build helloKind theCluster) isInt32_0)).
Defined.

Lemma Inc_Dev_at_the_bounds_witness :
  isInt32 (ActivatedKind_count
             (ActivatedKind_setCount (2 ^ 31 - 1) (Kind_Build helloKind theCluster)))
  ∧ ActivatedKind_count
      (Inc (ActivatedKind_setCount (2 ^ 31 - 1) (Kind_Build helloKind theCluster)))
    = - 2 ^ 31.
Proof.
  assert (H : isInt32 (ActivatedKind_count
                         (ActivatedKind_setCount (2 ^ 31 - 1)
                            (Kind_Build helloKind theCluster))))
    by (split; [discriminate|reflexivity]).
  split; [exact H|].
  exact (proj1 (Inc_Dev_at_the_bounds _ H)).
Defined.

Lemma calls_frame_witness :
  isInt32 (ActivatedKind_count (Kind_Build helloKind theCluster))
  ∧ ActivatedKind_Kind (calls [CallInc; CallDev; CallDev] (Kind_Build helloKind theCluster))
    = "Hello".
Proof.
  split; [exact isInt32_0|].
  exact (proj1 (calls_frame [CallInc; CallDev; CallDev] (Kind_Build helloKind theCluster)
                  isInt32_0)).
Defined.

Lemma calls_schedule_independent_witness :
  interleaving [[CallInc; CallDev]; [CallInc]] [CallInc; CallInc; CallDev]
  ∧ interleaving [[CallInc; CallDev]; [CallInc]] [CallInc; CallDev; CallInc]
  ∧ calls [CallInc; CallInc; CallDev] (Kind_Build helloKind theCluster)
    = calls [CallInc; CallDev; CallInc] (Kind_Build helloKind theCluster).
Proof.
  assert (H : interleaving [[CallInc; CallDev]; [CallInc]] [CallInc; CallInc; CallDev]).
  { apply (interleaving_step _ 0%nat CallInc [CallDev]); [reflexivity|].
    apply (interleaving_step _ 1%nat CallInc []); [reflexivity|].
    apply (interleaving_step _ 0%nat CallDev []); [reflexivity|].
    apply interleaving_done. repeat constructor. }
  assert (H' : interleaving [[CallInc; CallDev]; [CallInc]] [CallInc; CallDev; CallInc]).
  { apply (interleaving_step _ 0%nat CallInc [CallDev]); [reflexivity|].
    apply (interleaving_step _ 0%nat CallDev []); [reflexivity|].
    apply (interleaving_step _ 1%nat CallInc []); [reflexivity|].
    apply interleaving_done. repeat constructor. }
  split; [exact H|]. split; [exact H'|].
  exact (calls_schedule_independent _ _ _ (Kind_Build helloKind theCluster) H H').
Defined.

End counter_calls_examples.

(** ** More on the activation middleware *)

Section middleware_world.
Import cluster.

Variable GetCluster : ActorSystem → Cluster.

(** X11. After stop handling of an activation with an identity, by a
    receiver that leaves the pid caches alone, the cluster's pid cache does
    not map the identity to the stopped process; an entry of another process
    under the same identity stays, as does every entry under another key and
    every other cache. *)
Theorem handleStopped_cache_after
    (c : ReceiverContext) (next : ReceiverFunc) (envelope : MessageEnvelope) (w : World)
    (identity : ClusterIdentity) :
  (∀ c' envelope' w', World_caches (next c' envelope' w') = World_caches w') →
  GetClusterIdentity c w = Some identity →
  let cache := Cluster_PidCache (GetCluster (ReceiverContext_ActorSystem c)) in
  let key := (ClusterIdentity_Identity identity, ClusterIdentity_Kind identity) in
  let stopped := handleStopped GetCluster c next envelope w in
  (World_caches stopped !!! cache) !! key ≠ Some (ReceiverContext_Self c)
  ∧ (∀ existing, (World_caches w !!! cache) !! key = Some existing →
                 existing ≠ ReceiverContext_Self c →
                 (World_caches stopped !!! cache) !! key = Some existing)
  ∧ (∀ key', key' ≠ key →
             (World_caches stopped !!! cache) !! key' = (World_caches w !!! cache) !! key')
  ∧ (∀ other, other ≠ cache → World_caches stopped !! other = World_caches w !! other).
Proof.
  intros Hnext Hid cache key stopped.
  assert (Hcaches : World_caches stopped
                    = <[cache := removeByValue (ClusterIdentity_Identity identity)
                                   (ClusterIdentity_Kind identity) (ReceiverContext_Self c)
                                   (World_caches w !!! cache)]> (World_caches w)).
  { subst stopped. unfold handleStopped. rewrite Hid, Hnext. reflexivity. }
  rewrite Hcaches, lookup_total_insert_eq. clear Hcaches.
  generalize (World_caches w !!! cache). intros entries.
  unfold removeByValue, PID_Equal. fold key.
  repeat split.
  - destruct (entries !! key) as [existing|] eqn:Hkey; [|by rewrite Hkey].
    case_bool_decide as Heq.
    + by rewrite lookup_delete_eq.
    + rewrite Hkey. by intros [= ->].
  - intros existing Hkey Hne. rewrite Hkey. by rewrite bool_decide_false.
  - intros key' Hne. destruct (entries !! key) as [existing|]; [|done].
    case_bool_decide; [|done]. by rewrite lookup_delete_ne.
  - intros other Hne. by rewrite lookup_insert_ne.
Qed.

(** X12. The middleware changes the world only through the wrapped receiver,
    and on a stop envelope also through [Publish] and [RemoveByValue]: a
    property of the world that the receiver preserves holds after the
    middleware on every message other than a stop signal, and on a stop
    signal as well when publishing and removing preserve it. *)
Theorem clusterReceiveMiddleware_preserves
    (I : World → Prop) (next : ReceiverFunc) (c : ReceiverContext)
    (envelope : MessageEnvelope) (w : World) :
  (∀ c' envelope' w', I w' → I (next c' envelope' w')) →
  I w →
  (MessageEnvelope_Message envelope ≠ Stopped →
   I (clusterReceiveMiddleware GetCluster next c envelope w))
  ∧ ((∀ stream ev w', I w' → I (EventStream_Publish stream ev w')) →
     (∀ cache identity kind pid w', I w' → I (PidCache_RemoveByValue cache identity kind pid w')) →
     I (clusterReceiveMiddleware GetCluster next c envelope w)).
Proof.
  intros Hnext Hw.
  assert (Hstopped : (∀ stream ev w', I w' → I (EventStream_Publish stream ev w')) →
                     (∀ cache identity kind pid w',
                        I w' → I (PidCache_RemoveByValue cache identity kind pid w')) →
                     I (handleStopped GetCluster c next envelope w)).
  { intros Hpublish Hremove. unfold handleStopped.
    destruct (GetClusterIdentity c w); apply Hnext; [|done].
    by apply Hremove, Hpublish. }
  unfold clusterReceiveMiddleware.
  destruct (MessageEnvelope_Message envelope); split; try done;
    intros; unfold handleStarted; by repeat apply Hnext.
Qed.

(** X13. An activation of a kind made by [NewKind], on props that
    [WithClusterIdentity] has given the identity [ci]: the cluster middleware
    is the last receiver middleware of the props, the behaviour is that of
    the original props, the init hooks leave [ci] attached to the context,
    and the start signal, handled by a receiver that leaves the extensions
    alone, is followed by a ClusterInit that carries [ci]. *)
Theorem WithClusterIdentity_reaches_ClusterInit
    (kind : string) (props : Props) (ci : ClusterIdentity)
    (c : ReceiverContext) (next : ReceiverFunc) (envelope : MessageEnvelope) (w : World) :
  (∀ c' envelope' w', World_extensions (next c' envelope' w') = World_extensions w') →
  MessageEnvelope_Message envelope = Started →
  let p := WithClusterIdentity (Kind_Props (NewKind GetCluster kind props)) ci in
  let w0 := Props_runInit p c w in
  last (Props_receiverMiddleware p) = Some (clusterReceiveMiddleware GetCluster)
  ∧ Props_producer p = Props_producer props
  ∧ GetClusterIdentity c w0 = Some ci
  ∧ clusterReceiveMiddleware GetCluster next c envelope w0
    = next c (WrapEnvelope
                (MsgClusterInit
                   {| ClusterInit_Identity := Some ci;
                      ClusterInit_Cluster := GetCluster (ReceiverContext_ActorSystem c) |}))
        (next c envelope w0).
Proof.
  intros Hnext Hstart p w0.
  assert (Hbound : GetClusterIdentity c w0 = Some ci) by apply WithClusterIdentity_binds.
  split; [apply last_snoc|]. split; [reflexivity|]. split; [exact Hbound|].
  unfold clusterReceiveMiddleware. rewrite Hstart. unfold handleStarted.
  unfold GetClusterIdentity in *. by rewrite Hnext, Hbound.
Qed.

(** X14. A start signal and then a stop signal through the middleware, on a
    context with an identity and a grain that records what it receives: the
    collaborators see the start envelope, the ClusterInit envelope, the
    publication of ActivationTerminating, the removal from the pid cache and
    the stop envelope, in this order, and the identity is still attached. *)
Theorem start_then_stop_trace
    (c : ReceiverContext) (start stop : MessageEnvelope) (w : World)
    (identity : ClusterIdentity) :
  GetClusterIdentity c w = Some identity →
  MessageEnvelope_Message start = Started →
  MessageEnvelope_Message stop = Stopped →
  let cl := GetCluster (ReceiverContext_ActorSystem c) in
  let receive := clusterReceiveMiddleware GetCluster recordingReceiver c in
  let w' := receive stop (receive start w) in
  World_trace w'
  = World_trace w
    ++ [CallNext (ReceiverContext_id c) start;
        CallNext (ReceiverContext_id c)
          (WrapEnvelope (MsgClusterInit {| ClusterInit_Identity := Some identity;
                                           ClusterInit_Cluster := cl |}));
        CallPublish (ActorSystem_EventStream (Cluster_ActorSystem cl))
          (EvActivationTerminating
             {| ActivationTerminating_Pid := ReceiverContext_Self c;
                ActivationTerminating_ClusterIdentity := identity |});
        CallRemoveByValue (Cluster_PidCache cl) (ClusterIdentity_Identity identity)
          (ClusterIdentity_Kind identity) (ReceiverContext_Self c);
        CallNext (ReceiverContext_id c) stop]
  ∧ GetClusterIdentity c w' = Some identity.
Proof.
  intros Hid Hstart Hstop cl receive w'. subst w' receive.
  unfold clusterReceiveMiddleware. rewrite Hstart, Hstop.
  unfold handleStopped, handleStarted.
  rewrite !recordingReceiver_identity, Hid. split.
  - rewrite recordingReceiver_trace. simpl. by rewrite <- !app_assoc.
  - exact Hid.
Qed.

End middleware_world.

Section middleware_world_examples.
Import cluster examples.

Lemma recordingReceiver_keeps_caches c envelope w :
  World_caches (recordingReceiver c envelope w) = World_caches w.
Proof. reflexivity. Defined.

Lemma recordingReceiver_keeps_extensions c envelope w :
  World_extensions (recordingReceiver c envelope w) = World_extensions w.
Proof. reflexivity. Defined.

Lemma handleStopped_cache_after_witness :
  (∀ c envelope w, World_caches (recordingReceiver c envelope w) = World_caches w)
  ∧ GetClusterIdentity ctx1 activatedWorld = Some user1
  ∧ (World_caches (handleStopped GetCluster ctx1 recordingReceiver (envelopeOf Stopped)
                     activatedWorld) !!! 2%N) !! ("user-1", "Hello") ≠ Some pid1.
Proof.
  split; [exact recordingReceiver_keeps_caches|]. split; [reflexivity|].
  exact (proj1 (handleStopped_cache_after GetCluster ctx1 recordingReceiver
                  (envelopeOf Stopped) activatedWorld user1
                  recordingReceiver_keeps_caches eq_refl)).
Defined.

Lemma clusterReceiveMiddleware_preserves_witness :
  (∀ c envelope w, World_streams w = ∅ → World_streams (recordingReceiver c envelope w) = ∅)
  ∧ World_streams emptyWorld = ∅
  ∧ MessageEnvelope_Message (envelopeOf Started) ≠ Stopped
  ∧ World_streams (clusterReceiveMiddleware GetCluster recordingReceiver ctx1
                     (envelopeOf Started) emptyWorld) = ∅.
Proof.
  assert (H : ∀ c envelope w,
            World_streams w = ∅ → World_streams (recordingReceiver c envelope w) = ∅)
    by (intros c envelope w Hw; exact Hw).
  assert (Hne : MessageEnvelope_Message (envelopeOf Started) ≠ Stopped) by discriminate.
  split; [exact H|]. split; [reflexivity|]. split; [exact Hne|].
  exact (proj1 (clusterReceiveMiddleware_preserves GetCluster (λ w, World_streams w = ∅)
                  recordingReceiver ctx1 (envelopeOf Started) emptyWorld H eq_refl) Hne).
Defined.

Lemma WithClusterIdentity_reaches_ClusterInit_witness :
  (∀ c envelope w, World_extensions (recordingReceiver c envelope w) = World_extensions w)
  ∧ MessageEnvelope_Message (envelopeOf Started) = Started
  ∧ GetClusterIdentity ctx1
      (Props_runInit (WithClusterIdentity (Kind_Props (NewKind GetCluster "Hello" plainProps))
                        user1) ctx1 emptyWorld)
    = Some user1.
Proof.
  split; [exact recordingReceiver_keeps_extensions|]. split; [reflexivity|].
  exact (proj1 (proj2 (proj2
           (WithClusterIdentity_reaches_ClusterInit GetCluster "Hello" plainProps user1 ctx1
              recordingReceiver (envelopeOf Started) emptyWorld
              recordingReceiver_keeps_extensions eq_refl)))).
Defined.

Lemma start_then_stop_trace_witness :
  GetClusterIdentity ctx1 activatedWorld = Some user1
  ∧ MessageEnvelope_Message (envelopeOf Started) = Started
  ∧ MessageEnvelope_Message (envelopeOf Stopped) = Stopped
  ∧ GetClusterIdentity ctx1
      (clusterReceiveMiddleware GetCluster recordingReceiver ctx1 (envelopeOf Stopped)
         (clusterReceiveMiddleware GetCluster recordingReceiver ctx1 (envelopeOf Started)
            activatedWorld))
    = Some user1.
Proof.
  split; [reflexivity|]. split; [reflexivity|]. split; [reflexivity|].
  exact (proj2 (start_then_stop_trace GetCluster ctx1 (envelopeOf Started) (envelopeOf Stopped)
                  activatedWorld user1 eq_refl eq_refl eq_refl)).
Defined.

End middleware_world_examples.

(** ** More on the generator: services, content and files *)

Section generator_output.
Import protoc_gen_go_grain.

Variable QualifiedGoIdent : GoIdent → string.
Variable execute : serviceDesc → string.
Variable version : string.

(** The descriptor of a method at a position, if the method gets one. *)
#[local] Abbreviation described :=
  (λ im : nat * Method,
     if streaming im.2 then None else Some (descriptorAt QualifiedGoIdent im.1 im.2)).

Lemma rangeMethods_Name i methods sd :
  serviceDesc_Name (rangeMethods QualifiedGoIdent i methods sd) = serviceDesc_Name sd.
Proof.
  revert i sd. induction methods as [|method methods IH]; intros i sd; [done|].
  rewrite rangeMethods_cons, IH. by destruct (streaming method).
Qed.

Lemma rangeMethods_Methods i methods sd :
  serviceDesc_Methods (rangeMethods QualifiedGoIdent i methods sd)
  = serviceDesc_Methods sd ++ omap described (imap (λ j method, (i + j, method)) methods).
Proof.
  revert i sd. induction methods as [|method methods IH]; intros i sd.
  - simpl. by rewrite app_nil_r.
  - rewrite rangeMethods_cons, IH, imap_cons.
    rewrite (imap_ext ((λ j method0, (i + j, method0)) ∘ S)
               (λ j method0, (S i + j, method0)) methods)
      by (intros j x _; simpl; f_equal; lia).
    rewrite Nat.add_0_r. cbn [omap list_omap fst snd].
    destruct (streaming method); [done|]. simpl. by rewrite <- app_assoc.
Qed.

Lemma described_length i methods :
  length (omap described (imap (λ j method, (i + j, method)) methods))
  = length (filter (λ method, streaming method = false) methods).
Proof.
  revert i. induction methods as [|method methods IH]; intros i; [done|].
  rewrite imap_cons, filter_cons. simpl.
  rewrite (imap_ext ((λ j method0, (i + j, method0)) ∘ S)
             (λ j method0, (S i + j, method0)) methods)
    by (intros j x _; simpl; f_equal; lia).
  destruct (streaming method); simpl; [exact (IH (S i))|f_equal; exact (IH (S i))].
Qed.

(** X15. The descriptors of a service are those of its non-streaming
    methods in declaration order, each with the position of its method among
    all methods of the service as index; there are as many as non-streaming
    methods, and the description carries the Go name of the service. *)
Theorem describeService_in_declaration_order (service : Service) :
  describeService QualifiedGoIdent service
  = {| serviceDesc_Name := Service_GoName service;
       serviceDesc_Methods := omap described (imap pair (Service_Methods service)) |}
  ∧ length (serviceDesc_Methods (describeService QualifiedGoIdent service))
    = length (filter (λ method, streaming method = false) (Service_Methods service)).
Proof.
  assert (H : serviceDesc_Methods (describeService QualifiedGoIdent service)
              = omap described (imap pair (Service_Methods service))).
  { unfold describeService. by rewrite rangeMethods_Methods. }
  split.
  - destruct (describeService QualifiedGoIdent service) as [name methods] eqn:Hsd.
    simpl in H. subst methods. f_equal.
    change name with (serviceDesc_Name
                        {| serviceDesc_Name := name;
                           serviceDesc_Methods :=
                             omap described (imap pair (Service_Methods service)) |}).
    rewrite <- Hsd. unfold describeService. by rewrite rangeMethods_Name.
  - rewrite H. apply (described_length 0).
Qed.

Lemma describeService_no_descriptor service :
  serviceDesc_Methods (describeService QualifiedGoIdent service) = []
  ↔ ¬ Exists (λ method, streaming method = false) (Service_Methods service).
Proof.
  rewrite Exists_exists. split.
  - intros Hnil (method & Hin & Hns).
    apply list_elem_of_lookup in Hin as [i Hi].
    assert (Hmd : descriptorAt QualifiedGoIdent i method
                  ∈ serviceDesc_Methods (describeService QualifiedGoIdent service))
      by (apply describeService_elem_of; by exists i, method).
    rewrite Hnil in Hmd. by apply elem_of_nil in Hmd.
  - intros Hnone.
    destruct (serviceDesc_Methods (describeService QualifiedGoIdent service))
      as [|md mds] eqn:Hmds; [done|].
    assert (Hmd : md ∈ serviceDesc_Methods (describeService QualifiedGoIdent service))
      by (rewrite Hmds; left).
    apply describeService_elem_of in Hmd as (i & method & Hi & Hns & _).
    destruct Hnone. exists method. split; [|done]. by eapply list_elem_of_lookup_2.
Qed.

Lemma generateService_equation service g :
  generateService QualifiedGoIdent execute service g
  = g
    ++ (if ServiceOptions_GetDeprecated (Service_Options service)
        then ["//"; deprecationComment] else [])
    ++ (if bool_decide (Exists (λ method, streaming method = false) (Service_Methods service))
        then [execute (describeService QualifiedGoIdent service)] else []).
Proof.
  rewrite generateService_prints.
  pose proof (describeService_no_descriptor service) as Hnone.
  destruct (serviceDesc_Methods (describeService QualifiedGoIdent service)) as [|md mds].
  - rewrite bool_decide_false by (by apply Hnone).
    destruct (ServiceOptions_GetDeprecated _); by rewrite ?app_nil_r.
  - rewrite bool_decide_true by (destruct (decide (Exists (λ method, streaming method = false)
                                                     (Service_Methods service)));
                                 [done|by apply Hnone in n]).
    destruct (ServiceOptions_GetDeprecated _); [|done]. by rewrite <- !app_assoc.
Qed.

Lemma generateService_from_empty service g :
  generateService QualifiedGoIdent execute service g
  = g ++ generateService QualifiedGoIdent execute service [].
Proof. by rewrite (generateService_equation service g), (generateService_equation service []). Qed.

Lemma generateServices_from_empty services g :
  foldl (λ g service, generateService QualifiedGoIdent execute service g) g services
  = g ++ mjoin ((λ service, generateService QualifiedGoIdent execute service []) <$> services).
Proof.
  revert g. induction services as [|service services IH]; intros g; simpl.
  - by rewrite app_nil_r.
  - by rewrite IH, generateService_from_empty, <- app_assoc.
Qed.

Lemma generateContent_equation g file :
  generateContent QualifiedGoIdent execute g file
  = g ++ ["package " +:+ File_GoPackageName file; ""]
      ++ mjoin ((λ service, generateService QualifiedGoIdent execute service [])
                  <$> File_Services file).
Proof.
  unfold generateContent, P. case_bool_decide as Hlen.
  - apply nil_length_inv in Hlen. rewrite Hlen. simpl. by rewrite <- app_assoc.
  - rewrite generateServices_from_empty. by rewrite <- !app_assoc.
Qed.

(** The six lines of the header. *)
Lemma generateHeader_lines gen g file :
  generateHeader version gen g file
  = g ++ ["// Code generated by protoc-gen-grain. DO NOT EDIT.";
          "// versions:";
          "//  protoc-gen-grain " +:+ version;
          "//  protoc           " +:+ protocVersion gen;
          (if FileOptions_GetDeprecated (File_Proto_Options file)
           then "// " +:+ File_Desc_Path file +:+ " is a deprecated file."
           else "// source: " +:+ File_Desc_Path file);
          ""].
Proof.
  unfold generateHeader, P.
  destruct (FileOptions_GetDeprecated _); by rewrite <- !app_assoc.
Qed.

Lemma generateFile_equation gen file :
  Plugin_CompilerVersion (generateFile QualifiedGoIdent execute version gen file)
  = Plugin_CompilerVersion gen
  ∧ Plugin_genFiles (generateFile QualifiedGoIdent execute version gen file)
    = Plugin_genFiles gen
      ++ match File_Services file with
         | [] => []
         | _ :: _ =>
             [ {| Generated_filename := File_GeneratedFilenamePrefix file +:+ "_grain.pb.go";
                  Generated_goImportPath := File_GoImportPath file;
                  Generated_lines :=
                    ["// Code generated by protoc-gen-grain. DO NOT EDIT.";
                     "// versions:";
                     "//  protoc-gen-grain " +:+ version;
                     "//  protoc           " +:+ protocVersion gen;
                     (if FileOptions_GetDeprecated (File_Proto_Options file)
                      then "// " +:+ File_Desc_Path file +:+ " is a deprecated file."
                      else "// source: " +:+ File_Desc_Path file);
                     "";
                     "package " +:+ File_GoPackageName file;
                     ""]
                    ++ mjoin ((λ service, generateService QualifiedGoIdent execute service [])
                                <$> File_Services file);
                  Generated_imports :=
                    generateContent_imports (File_GoImportPath file) ∅ file |} ]
         end.
Proof.
  unfold generateFile. case_bool_decide as Hlen.
  - apply nil_length_inv in Hlen. rewrite Hlen. by rewrite app_nil_r.
  - split; [done|]. simpl.
    destruct (File_Services file) as [|service services] eqn:Hservices; [done|].
    rewrite generateContent_equation, generateHeader_lines, Hservices.
    simpl. reflexivity.
Qed.

(** X16. [generateService] only appends to the generated file: the
    deprecation comment when the service is deprecated, then the template on
    the description exactly when the service has a non-streaming method. A
    deprecated service whose methods all stream thus leaves the comment with
    no code after it. *)
Theorem generateService_appends (service : Service) (g : GeneratedFile) :
  generateService QualifiedGoIdent execute service g
  = g
    ++ (if ServiceOptions_GetDeprecated (Service_Options service)
        then ["//"; deprecationComment] else [])
    ++ (if bool_decide (Exists (λ method, streaming method = false) (Service_Methods service))
        then [execute (describeService QualifiedGoIdent service)] else []).
Proof. apply generateService_equation. Qed.

(** X17. The content of a generated file is the package clause, an empty
    line, and then the output of [generateService] for each service of the
    file, in the order of the services and without anything in between. *)
Theorem generateContent_services_in_order (g : GeneratedFile) (file : File) :
  generateContent QualifiedGoIdent execute g file
  = g ++ ["package " +:+ File_GoPackageName file; ""]
      ++ mjoin ((λ service, generateService QualifiedGoIdent execute service [])
                  <$> File_Services file).
Proof. apply generateContent_equation. Qed.

(** X18. [generateFile] adds no file for a proto file without services.
    For a file with services it adds exactly one, behind the files generated
    before and without changing them: it is named after the file with the
    suffix [_grain.pb.go], belongs to the import path of the file, and holds
    the six header lines, starting with the generated-code marker, the
    package clause, and the services in order, together with the imports
    that the content has noted down. *)
Theorem generateFile_output (gen : Plugin) (file : File) :
  Plugin_CompilerVersion (generateFile QualifiedGoIdent execute version gen file)
  = Plugin_CompilerVersion gen
  ∧ Plugin_genFiles (generateFile QualifiedGoIdent execute version gen file)
    = Plugin_genFiles gen
      ++ match File_Services file with
         | [] => []
         | _ :: _ =>
             [ {| Generated_filename := File_GeneratedFilenamePrefix file +:+ "_grain.pb.go";
                  Generated_goImportPath := File_GoImportPath file;
                  Generated_lines :=
                    ["// Code generated by protoc-gen-grain. DO NOT EDIT.";
                     "// versions:";
                     "//  protoc-gen-grain " +:+ version;
                     "//  protoc           " +:+ protocVersion gen;
                     (if FileOptions_GetDeprecated (File_Proto_Options file)
                      then "// " +:+ File_Desc_Path file +:+ " is a deprecated file."
                      else "// source: " +:+ File_Desc_Path file);
                     "";
                     "package " +:+ File_GoPackageName file;
                     ""]
                    ++ mjoin ((λ service, generateService QualifiedGoIdent execute service [])
                                <$> File_Services file);
                  Generated_imports :=
                    generateContent_imports (File_GoImportPath file) ∅ file |} ]
         end.
Proof. apply generateFile_equation. Qed.

#[local] Set Warnings "-clear-no-such-hyp".

Lemma noteImport_eq goImportPath imports ident :
  noteImport goImportPath imports ident
  = imports ∪ ({[ GoIdent_GoImportPath ident ]} ∖ {[ goImportPath ]}).
Proof. unfold noteImport. case_bool_decide; set_solver. Qed.

Lemma rangeMethods_imports_eq goImportPath methods imports :
  rangeMethods_imports goImportPath methods imports
  = imports
    ∪ (list_to_set (GoIdent_GoImportPath <$> (methods ≫= qualifiedIdents))
       ∖ {[ goImportPath ]}).
Proof.
  revert imports. induction methods as [|method methods IH]; intros imports.
  - simpl. set_solver.
  - cbn [rangeMethods_imports]. rewrite bind_cons, fmap_app, list_to_set_app_L.
    unfold qualifiedIdents at 1, streaming.
    destruct (IsStreamingClient (Method_Desc method) || IsStreamingServer (Method_Desc method)).
    + rewrite IH. set_solver.
    + simpl. rewrite IH, !noteImport_eq. set_solver.
Qed.

Lemma generateServices_imports_eq goImportPath services imports :
  foldl (λ imports service, generateService_imports goImportPath service imports)
        imports services
  = imports
    ∪ (list_to_set (GoIdent_GoImportPath
                      <$> (services ≫= λ service, Service_Methods service ≫= qualifiedIdents))
       ∖ {[ goImportPath ]}).
Proof.
  revert imports. induction services as [|service services IH]; intros imports.
  - simpl. set_solver.
  - cbn [foldl]. rewrite IH. unfold generateService_imports.
    rewrite rangeMethods_imports_eq, bind_cons, fmap_app, list_to_set_app_L. set_solver.
Qed.

Lemma generateContent_imports_eq goImportPath imports file :
  File_Services file ≠ [] →
  generateContent_imports goImportPath imports file
  = imports
    ∪ ((list_to_set contentPackages
        ∪ list_to_set (GoIdent_GoImportPath
                         <$> (File_Services file
                                ≫= λ service, Service_Methods service ≫= qualifiedIdents)))
       ∖ {[ goImportPath ]}).
Proof.
  intros Hservices. unfold generateContent_imports.
  rewrite bool_decide_false by (intros Hlen; by apply nil_length_inv in Hlen).
  rewrite generateServices_imports_eq, !noteImport_eq.
  unfold contentPackages, Ident. simpl. set_solver.
Qed.

(** X19. A file whose services are not deprecated and have streaming
    methods only still gets its generated file. The lines printed into it
    are the header and the package clause and no code, and the imports noted
    down for it are the six packages of the content, apart from the file's
    own package. *)
Theorem generateFile_streaming_only (gen : Plugin) (file : File) :
  File_Services file ≠ [] →
  Forall (λ service,
            ServiceOptions_GetDeprecated (Service_Options service) = false
            ∧ Forall (λ method, streaming method = true) (Service_Methods service))
         (File_Services file) →
  ∃ generated,
    Plugin_genFiles (generateFile QualifiedGoIdent execute version gen file)
    = Plugin_genFiles gen ++ [generated]
    ∧ Generated_lines generated
      = generateHeader version gen [] file ++ ["package " +:+ File_GoPackageName file; ""]
    ∧ length (Generated_lines generated) = 8
    ∧ Generated_imports generated
      = list_to_set contentPackages ∖ {[ File_GoImportPath file ]}.
Proof.
  intros Hservices Hstreaming.
  destruct (generateFile_equation gen file) as [_ Hfiles].
  assert (Hnone : mjoin ((λ service, generateService QualifiedGoIdent execute service [])
                           <$> File_Services file) = []).
  { apply join_nil_2, Forall_fmap. eapply Forall_impl; [exact Hstreaming|].
    intros s [Hdep Hs]. simpl. rewrite generateService_equation, Hdep.
    rewrite bool_decide_false; [done|].
    rewrite Exists_exists. intros (method & Hin & Hns).
    apply (proj1 (Forall_forall _ _) Hs) in Hin. congruence. }
  assert (Hidents : File_Services file
                      ≫= (λ service, Service_Methods service ≫= qualifiedIdents) = []).
  { clear Hfiles Hnone Hservices. revert Hstreaming. generalize (File_Services file).
    intros services Hstreaming.
    induction Hstreaming as [|service services [_ Hs] _ IH]; [done|].
    rewrite bind_cons, IH, app_nil_r. clear IH.
    induction Hs as [|method methods Hm _ IH]; [done|].
    rewrite bind_cons, IH, app_nil_r. unfold qualifiedIdents. by rewrite Hm. }
  rewrite Hnone, app_nil_r in Hfiles.
  rewrite (generateContent_imports_eq _ _ _ Hservices), Hidents in Hfiles.
  destruct (File_Services file) as [|service services] eqn:Hfile; [done|].
  rewrite Hfiles.
  eexists. split; [reflexivity|]. simpl. split; [by rewrite generateHeader_lines|].
  split; [reflexivity|]. set_solver.
Qed.

(** X21. The imports noted down for the file generated from a proto file
    with services are the six packages of the content and the packages of
    the input and output types of all non-streaming methods, apart from the
    package of the generated file itself; streaming methods add none. *)
Theorem generateFile_imports (gen : Plugin) (file : File) :
  File_Services file ≠ [] →
  ∃ generated,
    Plugin_genFiles (generateFile QualifiedGoIdent execute version gen file)
    = Plugin_genFiles gen ++ [generated]
    ∧ Generated_imports generated
      = (list_to_set contentPackages
         ∪ list_to_set (GoIdent_GoImportPath
                          <$> (File_Services file
                                 ≫= λ service, Service_Methods service ≫= qualifiedIdents)))
        ∖ {[ File_GoImportPath file ]}.
Proof.
  intros Hservices.
  destruct (generateFile_equation gen file) as [_ Hfiles].
  rewrite (generateContent_imports_eq _ _ _ Hservices) in Hfiles.
  destruct (File_Services file) as [|service services] eqn:Hfile; [done|].
  rewrite Hfiles. eexists. split; [reflexivity|]. simpl. set_solver.
Qed.

End generator_output.

Section generator_output_examples.
Import protoc_gen_go_grain.

Lemma generateFile_streaming_only_witness :
  File_Services uploads_proto ≠ []
  ∧ Forall (λ service,
              ServiceOptions_GetDeprecated (Service_Options service) = false
              ∧ Forall (λ method, streaming method = true) (Service_Methods service))
           (File_Services uploads_proto)
  ∧ ∃ generated,
      Plugin_genFiles (generateFile GoIdent_GoName (λ sd, serviceDesc_Name sd) "v0.1.0"
                         freshPlugin uploads_proto)
      = Plugin_genFiles freshPlugin ++ [generated]
      ∧ Generated_lines generated
        = generateHeader "v0.1.0" freshPlugin [] uploads_proto ++ ["package main"; ""]
      ∧ length (Generated_lines generated) = 8
      ∧ Generated_imports generated
        = list_to_set contentPackages ∖ {[ File_GoImportPath uploads_proto ]}.
Proof.
  assert (H1 : File_Services uploads_proto ≠ []) by discriminate.
  assert (H2 : Forall (λ service,
                 ServiceOptions_GetDeprecated (Service_Options service) = false
                 ∧ Forall (λ method, streaming method = true) (Service_Methods service))
                (File_Services uploads_proto)).
  { repeat constructor. }
  split; [exact H1|]. split; [exact H2|].
  exact (generateFile_streaming_only GoIdent_GoName (λ sd, serviceDesc_Name sd) "v0.1.0"
           freshPlugin uploads_proto H1 H2).
Defined.

Lemma generateFile_imports_witness :
  File_Services reentrancy_proto ≠ []
  ∧ ∃ generated,
      Plugin_genFiles (generateFile GoIdent_GoName (λ sd, serviceDesc_Name sd) "v0.1.0"
                         freshPlugin reentrancy_proto)
      = Plugin_genFiles freshPlugin ++ [generated]
      ∧ Generated_imports generated
        = (list_to_set contentPackages
           ∪ list_to_set (GoIdent_GoImportPath
                            <$> (File_Services reentrancy_proto
                                   ≫= λ service, Service_Methods service ≫= qualifiedIdents)))
          ∖ {[ File_GoImportPath reentrancy_proto ]}.
Proof.
  assert (H : File_Services reentrancy_proto ≠ []) by discriminate.
  split; [exact H|].
  exact (generateFile_imports GoIdent_GoName (λ sd, serviceDesc_Name sd) "v0.1.0"
           freshPlugin reentrancy_proto H).
Defined.

(** The header and the package clause of the file generated for the
    reentrancy example, with the compiler version of the request. *)
Lemma generateFile_reentrancy :
  (λ generated, (Generated_filename generated, take 7 (Generated_lines generated)))
    <$> Plugin_genFiles (generateFile GoIdent_GoName (λ sd, serviceDesc_Name sd) "v0.1.0"
                           freshPlugin reentrancy_proto)
  = [("reentrancy_grain.pb.go",
      ["// Code generated by protoc-gen-grain. DO NOT EDIT.";
       "// versions:";
       "//  protoc-gen-grain v0.1.0";
       "//  protoc           v4.25.0-rc1";
       "// source: reentrancy.proto";
       "";
       "package main"])].
Proof. vm_compute. reflexivity. Qed.

End generator_output_examples.

(** ** Building an [ActivatedKind] *)

Section build.
Import cluster.

Variable GetCluster : ActorSystem → Cluster.

(** X20. [Build] asks the strategy builder of the kind for the strategy of
    the cluster it is given: the built kind has a strategy exactly when the
    kind has a builder and that builder returns one. A nil builder, as
    [NewKind] leaves it or [WithMemberStrategy] may store it, and a builder
    that returns nil both give a built kind without strategy; of two
    [WithMemberStrategy] the later one counts. Every sequence of counter
    calls on the built kind leaves name, props and strategy as built, with
    the wrapped net number of calls as count. *)
Theorem Kind_Build_strategy
    (k : Kind) (strategyBuilder earlier : option (Cluster → option MemberStrategy))
    (cl : Cluster) (name : string) (props : Props) (ms : list CounterCall) :
  (∀ strategy,
     ActivatedKind_Strategy (Kind_Build k cl) = Some strategy
     ↔ ∃ builder, Kind_StrategyBuilder k = Some builder ∧ builder cl = Some strategy)
  ∧ Kind_Build (WithMemberStrategy (WithMemberStrategy k earlier) strategyBuilder) cl
    = Kind_Build (WithMemberStrategy k strategyBuilder) cl
  ∧ ActivatedKind_Strategy (Kind_Build (WithMemberStrategy k None) cl) = None
  ∧ ActivatedKind_Strategy (Kind_Build (WithMemberStrategy k (Some (λ _, None))) cl) = None
  ∧ ActivatedKind_Strategy (Kind_Build (NewKind GetCluster name props) cl) = None
  ∧ calls ms (Kind_Build k cl)
    = ActivatedKind_setCount (atomic.wrapInt32 (net ms))
        {| ActivatedKind_Kind := Kind_Kind k;
           ActivatedKind_Props := Kind_Props k;
           ActivatedKind_Strategy := Kind_StrategyBuilder k ≫= (λ build, build cl);
           ActivatedKind_count := 0 |}.
Proof.
  split; [|split; [reflexivity|split; [reflexivity|split; [reflexivity|split; [reflexivity|]]]]].
  - intros strategy. unfold Kind_Build. simpl.
    destruct (Kind_StrategyBuilder k) as [builder|]; split.
    + intros H. by exists builder.
    + by intros (builder' & [= <-] & H).
    + discriminate.
    + by intros (builder & H & _).
  - rewrite calls_only_count, count_calls. unfold Kind_Build, ActivatedKind_setCount. simpl.
    by destruct (Kind_StrategyBuilder k).
Qed.

End build.
